(** * Business-Code-Package: response envelope, code ranges, localization

    A shallow embedding of the TypeScript library [@tchil/business-codes]:

    - [constants/business-codes.ts]  the eight range predicates,
    - [response/api-response.ts]     the [ApiResponse] envelope and its factories,
    - [i18n/message-provider.ts]     the [BusinessMessageProvider] resolver,
    - [nextjs/helpers.ts]            [parsePagination].

    Conventions of the embedding.

    - A JavaScript number that the program uses as an integer (codes, page
      numbers, counts, HTTP statuses) is a [Z].  Operations whose result can
      leave the integers ([Math.ceil(a / b)], [parseInt]) return a [jsnum],
      which adds [NaN] and the two infinities, and round as the runtime
      does: to the nearest double, ties to even.
    - A string is the sequence of the bytes of its UTF-8 encoding.
    - An optional property ([x?: T]) is an [option]: [None] is [undefined].
    - A plain object used as a dictionary ([MessageMap], [PaginationMeta],
      the [Map] of custom messages) is a [gmap].
    - Mutable object state (the provider) is threaded explicitly: a method
      that mutates returns the new state. *)

From Stdlib Require Import ZArith Lia Bool List Ascii String DecimalString DecimalPos.
From stdpp Require Import base option gmap strings list fin_maps.

Local Open Scope string_scope.
Local Open Scope Z_scope.

(** ** JavaScript numbers that may leave the integers *)

Inductive jsnum : Type :=
  | JInt (z : Z)
  | JNaN
  | JPosInf
  | JNegInf.

#[global] Instance jsnum_eq_dec : EqDecision jsnum.
Proof. solve_decision. Defined.

(** [a < b] of JavaScript on an integer and a [jsnum]: every comparison with
    [NaN] is false. *)
Definition js_lt_int_num (a : Z) (b : jsnum) : bool :=
  match b with
  | JInt z => a <? z
  | JNaN => false
  | JPosInf => true
  | JNegInf => false
  end.

(** *** Rounding to a double *)

(** The integer nearest to [n / d], ties to the even one ([n >= 0], [d > 0]). *)
Definition roundHalfEven (n d : Z) : Z :=
  let t := n / d in
  let r := n mod d in
  if 2 * r <? d then t
  else if d <? 2 * r then t + 1
  else if Z.even t then t else t + 1.

(** [n / (d * 2^e)] as a fraction of two integers. *)
Definition scaleNum (n e : Z) : Z := if 0 <=? e then n else n * 2 ^ (- e).
Definition scaleDen (d e : Z) : Z := if 0 <=? e then d * 2 ^ e else d.

(** The exponent [e] for which [n / d] has a mantissa of 53 bits:
    [2^52 <= n / (d * 2^e) < 2^53] ([n > 0], [d > 0]). *)
Definition binade (n d : Z) : Z :=
  let e := Z.log2 n - Z.log2 d - 53 in
  if 2 ^ 53 <=? scaleNum n e / scaleDen d e then e + 1 else e.

(** The double nearest to [n / d], as its mantissa [m] and exponent [e]: the
    value is [m * 2^e], with [2^52 <= m <= 2^53] ([n > 0], [d > 0]). *)
Definition roundQuotient (n d : Z) : Z * Z :=
  let e := binade n d in
  (roundHalfEven (scaleNum n e) (scaleDen d e), e).

(** The Number that an integer literal or digit string of value [z] denotes:
    the nearest double, an infinity from [2^1024 - 2^970] on. *)
Definition js_number_of_Z (z : Z) : jsnum :=
  if z =? 0 then JInt 0
  else
    let '(m, e) := roundQuotient (Z.abs z) 1 in
    let v := if 0 <=? e then m * 2 ^ e else m / 2 ^ (- e) in
    if 2 ^ 1024 <=? v then (if 0 <? z then JPosInf else JNegInf)
    else JInt (Z.sgn z * v).

(** [Math.ceil(a / b)] for integer [a] and [b]: the quotient is rounded to
    the nearest double before the ceiling is taken.  Division by zero gives
    an infinity with the sign of [a], and [0 / 0] is [NaN].  (The operands
    are numbers a double holds, so the quotient does not overflow; where it
    falls below the normal range its ceiling is still 1, or 0 when it is
    negative, as computed here.) *)
Definition js_ceil_div (a b : Z) : jsnum :=
  if b =? 0 then
    if 0 <? a then JPosInf else if a <? 0 then JNegInf else JNaN
  else if a =? 0 then JInt 0
  else
    let '(m, e) := roundQuotient (Z.abs a) (Z.abs b) in
    let positive := Z.sgn a =? Z.sgn b in
    JInt (if 0 <=? e then (if positive then m * 2 ^ e else - (m * 2 ^ e))
          else if positive then - ((- m) / 2 ^ (- e))
          else - (m / 2 ^ (- e))).

(** [Math.max(1, x)] and [Math.min(m, x)]: [NaN] is contagious. *)
Definition js_max_int (a : Z) (x : jsnum) : jsnum :=
  match x with
  | JInt z => JInt (Z.max a z)
  | JNaN => JNaN
  | JPosInf => JPosInf
  | JNegInf => JInt a
  end.

Definition js_min_int (a : Z) (x : jsnum) : jsnum :=
  match x with
  | JInt z => JInt (Z.min a z)
  | JNaN => JNaN
  | JPosInf => JInt a
  | JNegInf => JNegInf
  end.

(** ** constants/business-codes.ts *)

Module BusinessCode.

Definition SUCCESS : Z := 0.
Definition AUTH_FAILED : Z := 1001.
Definition PERMISSION_DENIED : Z := 1007.
Definition VALIDATION_ERROR : Z := 3001.
Definition INVALID_INPUT : Z := 3002.
Definition RESOURCE_NOT_FOUND : Z := 4001.
Definition RESOURCE_CONFLICT : Z := 4008.
Definition INTERNAL_ERROR : Z := 5001.
Definition RATE_LIMIT_EXCEEDED : Z := 7015.
Definition SERVICE_UNAVAILABLE : Z := 5004.

End BusinessCode.

Definition isSuccessCode (code : Z) : bool := (code >=? 0) && (code <? 100).
Definition isAuthError (code : Z) : bool := (code >=? 1000) && (code <? 2000).
Definition isUserError (code : Z) : bool := (code >=? 2000) && (code <? 3000).
Definition isValidationError (code : Z) : bool := (code >=? 3000) && (code <? 4000).
Definition isResourceError (code : Z) : bool := (code >=? 4000) && (code <? 5000).
Definition isSystemError (code : Z) : bool := (code >=? 5000) && (code <? 6000).
Definition isExternalError (code : Z) : bool := (code >=? 6000) && (code <? 7000).
Definition isBusinessLogicError (code : Z) : bool := (code >=? 7000) && (code <? 8000).

(** The family of the eight predicates, in the order of the source. *)
Definition rangePredicates : list (Z -> bool) :=
  [isSuccessCode; isAuthError; isUserError; isValidationError;
   isResourceError; isSystemError; isExternalError; isBusinessLogicError].

(** The eight documented half-open ranges [[lo, hi)], in the same order. *)
Definition documentedRanges : list (Z * Z) :=
  [(0, 100); (1000, 2000); (2000, 3000); (3000, 4000);
   (4000, 5000); (5000, 6000); (6000, 7000); (7000, 8000)].

Definition inRange (c : Z) (r : Z * Z) : bool := (fst r <=? c) && (c <? snd r).

Definition inDocumentedRange (c : Z) : bool := existsb (inRange c) documentedRanges.

(** How many predicates of the family hold of [c]. *)
Definition countTrue (c : Z) : nat :=
  length (List.filter (fun p => p c) rangePredicates).

(** ** constants/http-status.ts *)

Module HttpStatus.

Definition OK : Z := 200.
Definition CREATED : Z := 201.
Definition NO_CONTENT : Z := 204.
Definition BAD_REQUEST : Z := 400.
Definition UNAUTHORIZED : Z := 401.
Definition FORBIDDEN : Z := 403.
Definition NOT_FOUND : Z := 404.
Definition CONFLICT : Z := 409.
Definition UNPROCESSABLE_ENTITY : Z := 422.
Definition TOO_MANY_REQUESTS : Z := 429.
Definition INTERNAL_SERVER_ERROR : Z := 500.
Definition SERVICE_UNAVAILABLE : Z := 503.

End HttpStatus.

(** ** types: the shapes the envelope is built from *)

(** A value of type [unknown] stored under a string key of a metadata or
    details object.  [PUndefined] is a key that is present with the value
    [undefined], which an object spread copies like any other. *)
Inductive JsPrim : Type :=
  | PUndefined
  | PNull
  | PBool (b : bool)
  | PNum (n : jsnum)
  | PStr (s : string).

#[global] Instance JsPrim_eq_dec : EqDecision JsPrim.
Proof. solve_decision. Defined.

(** [PaginationMeta]: six optional named fields and an index signature, so
    any string key may occur. *)
Abbreviation PaginationMeta := (gmap string JsPrim).

(** [ErrorDetails] *)
Module ErrorDetails.
Record t : Type := mk {
  code : option Z;
  details : option (gmap string JsPrim);
  stack : option string
}.
End ErrorDetails.

(** The JavaScript value [null], the payload type of error envelopes. *)
Inductive JsNull : Type := null.

(** [a ?? b] on an optional property. *)
Definition nullish {A : Type} (a : option A) (b : A) : A :=
  match a with
  | Some x => x
  | None => b
  end.

Infix "??" := nullish (at level 45, left associativity).

(** [{ ...base, ...extra }]: the keys of the object spread last win. *)
Definition spread {K : Type} `{Countable K} {V : Type}
    (base extra : gmap K V) : gmap K V :=
  extra ∪ base.

Module SuccessParams.
Record t (D : Type) : Type := mk {
  data : option D;
  message : option string;
  statusCode : option Z;
  meta : option PaginationMeta
}.
Arguments mk {D}.
Arguments data {D}.
Arguments message {D}.
Arguments statusCode {D}.
Arguments meta {D}.
(** The default argument [{}]. *)
Definition empty {D : Type} : t D := mk None None None None.
End SuccessParams.

Module ErrorParams.
Record t : Type := mk {
  message : option string;
  code : option Z;
  details : option (gmap string JsPrim);
  statusCode : option Z
}.
Definition empty : t := mk None None None None.
End ErrorParams.

Module PaginatedParams.
Record t (T : Type) : Type := mk {
  data : list T;
  message : option string;
  statusCode : option Z;
  page : Z;
  limit : Z;
  total : Z;
  meta : option PaginationMeta
}.
Arguments mk {T}.
Arguments data {T}.
Arguments message {T}.
Arguments statusCode {T}.
Arguments page {T}.
Arguments limit {T}.
Arguments total {T}.
Arguments meta {T}.
End PaginatedParams.

Module ApiResponseParams.
Record t (D : Type) : Type := mk {
  success : bool;
  data : option D;
  message : option string;
  statusCode : option Z;
  meta : option PaginationMeta;
  error : option ErrorDetails.t
}.
Arguments mk {D}.
Arguments success {D}.
Arguments data {D}.
Arguments message {D}.
Arguments statusCode {D}.
Arguments meta {D}.
Arguments error {D}.
End ApiResponseParams.

(** ** response/api-response.ts *)

(** An instance of the class [ApiResponse<T>]. *)
Record ApiResponse (D : Type) : Type := MkApiResponse {
  success : bool;
  data : option D;
  message : option string;
  statusCode : option Z;
  meta : option PaginationMeta;
  error : option ErrorDetails.t
}.
Arguments MkApiResponse {D}.
Arguments success {D}.
Arguments data {D}.
Arguments message {D}.
Arguments statusCode {D}.
Arguments meta {D}.
Arguments error {D}.

(** A property of the plain object that [toJSON] builds. *)
Inductive JsonField (D : Type) : Type :=
  | FUndefined
  | FBool (b : bool)
  | FData (d : D)
  | FStr (s : string)
  | FNum (z : Z)
  | FMeta (m : PaginationMeta)
  | FError (e : ErrorDetails.t).
Arguments FUndefined {D}.
Arguments FBool {D}.
Arguments FData {D}.
Arguments FStr {D}.
Arguments FNum {D}.
Arguments FMeta {D}.
Arguments FError {D}.

(** A plain object: its properties in insertion order. *)
Abbreviation PlainObject D := (list (string * JsonField D)).

(** [o[k]]: the value of property [k], [None] when [o] has no such key. *)
Fixpoint getProp {D : Type} (o : PlainObject D) (k : string) : option (JsonField D) :=
  match o with
  | [] => None
  | (k', v) :: rest => if String.eqb k' k then Some v else getProp rest k
  end.

(** [k in o] *)
Definition hasProp {D : Type} (o : PlainObject D) (k : string) : bool :=
  match getProp o k with
  | Some _ => true
  | None => false
  end.

(** [if (v !== undefined) json.k = v] as the properties it appends. *)
Definition setIfDefined {D A : Type} (k : string) (inj : A -> JsonField D)
    (v : option A) : PlainObject D :=
  match v with
  | Some x => [(k, inj x)]
  | None => []
  end.

Module ApiResponse.

(** [constructor(params)] *)
Definition new {D : Type} (params : ApiResponseParams.t D) : ApiResponse D :=
  {| success := ApiResponseParams.success params;
     data := ApiResponseParams.data params;
     message := ApiResponseParams.message params;
     statusCode := ApiResponseParams.statusCode params;
     meta := ApiResponseParams.meta params;
     error := ApiResponseParams.error params |}.

(** [toJSON()] *)
Definition toJSON {D : Type} (this : ApiResponse D) : PlainObject D :=
  [("success", FBool (success this))]
    ++ setIfDefined "data" FData (data this)
    ++ setIfDefined "message" FStr (message this)
    ++ setIfDefined "statusCode" FNum (statusCode this)
    ++ setIfDefined "meta" FMeta (meta this)
    ++ setIfDefined "error" FError (error this).

(** The six computed fields of [paginated], before the spread. *)
Definition computedMeta (page limit total : Z) : PaginationMeta :=
  let totalPages := js_ceil_div total limit in
  list_to_map
    [("page", PNum (JInt page));
     ("limit", PNum (JInt limit));
     ("total", PNum (JInt total));
     ("totalPages", PNum totalPages);
     ("hasNextPage", PBool (js_lt_int_num page totalPages));
     ("hasPreviousPage", PBool (1 <? page))].

Definition success {D : Type} (params : SuccessParams.t D) : ApiResponse D :=
  new (ApiResponseParams.mk
         true
         (SuccessParams.data params)
         (Some (SuccessParams.message params ?? "Success"))
         (Some (SuccessParams.statusCode params ?? HttpStatus.OK))
         (SuccessParams.meta params)
         None).

Definition error (params : ErrorParams.t) : ApiResponse JsNull :=
  new (ApiResponseParams.mk
         false
         None
         (Some (ErrorParams.message params ?? "Error"))
         (Some (ErrorParams.statusCode params ?? HttpStatus.INTERNAL_SERVER_ERROR))
         None
         (Some (ErrorDetails.mk
                  (Some (ErrorParams.code params ?? BusinessCode.INTERNAL_ERROR))
                  (ErrorParams.details params)
                  None))).

Definition paginated {T : Type} (params : PaginatedParams.t T) : ApiResponse (list T) :=
  new (ApiResponseParams.mk
         true
         (Some (PaginatedParams.data params))
         (Some (PaginatedParams.message params ?? "Success"))
         (Some (PaginatedParams.statusCode params ?? HttpStatus.OK))
         (Some (spread
                  (computedMeta (PaginatedParams.page params)
                                (PaginatedParams.limit params)
                                (PaginatedParams.total params))
                  (PaginatedParams.meta params ?? ∅)))
         None).

Definition created {D : Type} (data : D) (message : option string) : ApiResponse D :=
  success (SuccessParams.mk
             (Some data)
             (Some (message ?? "Resource created successfully"))
             (Some HttpStatus.CREATED)
             None).

Definition noContent (message : option string) : ApiResponse JsNull :=
  new (ApiResponseParams.mk
         true None (Some (message ?? "No content")) (Some HttpStatus.NO_CONTENT)
         None None).

Definition badRequest (message : option string)
    (details : option (gmap string JsPrim)) : ApiResponse JsNull :=
  error (ErrorParams.mk (Some (message ?? "Bad request"))
                        (Some BusinessCode.INVALID_INPUT)
                        details
                        (Some HttpStatus.BAD_REQUEST)).

Definition unauthorized (message : option string) (code : option Z) : ApiResponse JsNull :=
  error (ErrorParams.mk (Some (message ?? "Unauthorized"))
                        (Some (code ?? BusinessCode.AUTH_FAILED))
                        None
                        (Some HttpStatus.UNAUTHORIZED)).

Definition forbidden (message : option string) : ApiResponse JsNull :=
  error (ErrorParams.mk (Some (message ?? "Forbidden"))
                        (Some BusinessCode.PERMISSION_DENIED)
                        None
                        (Some HttpStatus.FORBIDDEN)).

Definition notFound (message : option string) (code : option Z) : ApiResponse JsNull :=
  error (ErrorParams.mk (Some (message ?? "Not found"))
                        (Some (code ?? BusinessCode.RESOURCE_NOT_FOUND))
                        None
                        (Some HttpStatus.NOT_FOUND)).

Definition conflict (message : option string) (code : option Z) : ApiResponse JsNull :=
  error (ErrorParams.mk (Some (message ?? "Conflict"))
                        (Some (code ?? BusinessCode.RESOURCE_CONFLICT))
                        None
                        (Some HttpStatus.CONFLICT)).

Definition validationError (details : gmap string JsPrim)
    (message : option string) : ApiResponse JsNull :=
  error (ErrorParams.mk (Some (message ?? "Validation failed"))
                        (Some BusinessCode.VALIDATION_ERROR)
                        (Some details)
                        (Some HttpStatus.UNPROCESSABLE_ENTITY)).

Definition tooManyRequests (message : option string) : ApiResponse JsNull :=
  error (ErrorParams.mk (Some (message ?? "Too many requests"))
                        (Some BusinessCode.RATE_LIMIT_EXCEEDED)
                        None
                        (Some HttpStatus.TOO_MANY_REQUESTS)).

Definition internalError (message : option string) : ApiResponse JsNull :=
  error (ErrorParams.mk (Some (message ?? "Internal server error"))
                        (Some BusinessCode.INTERNAL_ERROR)
                        None
                        (Some HttpStatus.INTERNAL_SERVER_ERROR)).

End ApiResponse.

(** ** i18n/types.ts *)

(** [Locale] is ['en' | 'vi'] for the type checker and a string at run time;
    the resolver is written to survive any identifier, so the model takes a
    string.  The source indexes two plain objects with the locale
    ([builtInMessages] and [DEFAULT_UNKNOWN_MESSAGE]); the tables below give
    the own entries of these objects, which is what indexing yields for
    every identifier except the names that a plain object inherits
    ([inheritedName] below). *)
Abbreviation Locale := string.

(** The names of the members of [Object.prototype]: indexing a plain object
    with one of them yields the inherited member, not [undefined]. *)
Definition objectPrototypeMembers : list string :=
  ["constructor"; "__proto__"; "hasOwnProperty"; "isPrototypeOf";
   "propertyIsEnumerable"; "toLocaleString"; "toString"; "valueOf";
   "__defineGetter__"; "__defineSetter__"; "__lookupGetter__";
   "__lookupSetter__"].

Definition inheritedName (l : Locale) : bool :=
  existsb (String.eqb l) objectPrototypeMembers.

(** [MessageMap = Record<number, string>] *)
Abbreviation MessageMap := (gmap Z string).

(** [DEFAULT_UNKNOWN_MESSAGE[locale]] *)
Definition DEFAULT_UNKNOWN_MESSAGE_en : string := "Unknown error".

Definition DEFAULT_UNKNOWN_MESSAGE (locale : Locale) : option string :=
  if String.eqb locale "en" then Some DEFAULT_UNKNOWN_MESSAGE_en
  else if String.eqb locale "vi" then Some "Lỗi không xác định"
  else None.

(** A value that [getMessage] returns at run time: a message or, for a
    locale that names one, the member of [Object.prototype] of that name,
    which is not a string. *)
Inductive MessageValue : Type :=
  | Message (s : string)
  | PrototypeMember (name : string).

(** [DEFAULT_UNKNOWN_MESSAGE[locale]] for any string: the own entry, the
    inherited member, or [undefined]. *)
Definition DEFAULT_UNKNOWN_MESSAGE_at (locale : string) : option MessageValue :=
  match DEFAULT_UNKNOWN_MESSAGE locale with
  | Some s => Some (Message s)
  | None =>
    if inheritedName locale then Some (PrototypeMember locale) else None
  end.

(** ** i18n/locales/en.ts *)

Definition enMessages : MessageMap :=
  list_to_map
    [(0, "Operation completed successfully");
     (1, "Resource created successfully");
     (2, "Resource updated successfully");
     (3, "Resource deleted successfully");
     (4, "Operation accepted for processing");
     (5, "No changes were made");
     (1001, "Authentication failed");
     (1002, "Access token has expired");
     (1003, "Access token is invalid");
     (1004, "Access token is missing");
     (1005, "Refresh token has expired");
     (1006, "Refresh token is invalid");
     (1007, "Insufficient permissions");
     (1008, "Account is locked");
     (1009, "Account is not verified");
     (1010, "Session has expired");
     (1011, "Invalid API key");
     (1012, "Too many authentication attempts");
     (1013, "Two-factor authentication required");
     (1014, "Two-factor authentication failed");
     (1015, "OAuth authentication failed");
     (1016, "OAuth provider error");
     (2001, "User not found");
     (2002, "User already exists");
     (2003, "User account is inactive");
     (2004, "Invalid credentials");
     (2005, "User account is suspended");
     (2006, "User account is deleted");
     (2007, "Email already in use");
     (2008, "Username already in use");
     (2009, "Phone number already in use");
     (2010, "Invalid email format");
     (2011, "Password is too weak");
     (2012, "Passwords do not match");
     (2013, "Old password is incorrect");
     (2014, "Profile is incomplete");
     (3001, "Validation error");
     (3002, "Invalid input");
     (3003, "Required field is missing");
     (3004, "Value is out of range");
     (3005, "Invalid format");
     (3006, "Field is too long");
     (3007, "Field is too short");
     (3008, "Invalid date format");
     (3009, "Date cannot be in the past");
     (3010, "Date cannot be in the future");
     (3011, "Invalid file type");
     (3012, "File size is too large");
     (3013, "Invalid JSON format");
     (3014, "Invalid UUID format");
     (3015, "Invalid phone number format");
     (3016, "Duplicate entry");
     (4001, "Resource not found");
     (4002, "Resource already exists");
     (4003, "Resource is locked");
     (4004, "Resource has been deleted");
     (4005, "Resource has expired");
     (4006, "Resource limit reached");
     (4007, "Resource is not available");
     (4008, "Resource conflict");
     (4009, "Version mismatch");
     (4010, "Cannot delete resource with dependencies");
     (5001, "Internal server error");
     (5002, "Database error");
     (5003, "External service error");
     (5004, "Service temporarily unavailable");
     (5005, "Configuration error");
     (5006, "Cache error");
     (5007, "File system error");
     (5008, "Memory limit exceeded");
     (5009, "Operation timed out");
     (5010, "Queue error");
     (6001, "Third-party API error");
     (6002, "Payment gateway error");
     (6003, "Email service error");
     (6004, "SMS service error");
     (6005, "Storage service error");
     (6006, "Search service error");
     (6007, "Notification service error");
     (6008, "Analytics service error");
     (7001, "Operation not allowed");
     (7002, "Insufficient balance");
     (7003, "Transaction failed");
     (7004, "Order cannot be cancelled");
     (7005, "Order cannot be modified");
     (7006, "Item out of stock");
     (7007, "Coupon is invalid");
     (7008, "Coupon has expired");
     (7009, "Minimum order not met");
     (7010, "Maximum quantity exceeded");
     (7011, "Subscription required");
     (7012, "Subscription has expired");
     (7013, "Feature not available");
     (7014, "Quota exceeded");
     (7015, "Rate limit exceeded")].

(** ** i18n/locales/vi.ts *)

Definition viMessages : MessageMap :=
  list_to_map
    [(0, "Thao tác thành công");
     (1, "Tạo mới thành công");
     (2, "Cập nhật thành công");
     (3, "Xóa thành công");
     (4, "Yêu cầu đã được tiếp nhận");
     (5, "Không có thay đổi");
     (1001, "Xác thực thất bại");
     (1002, "Token đã hết hạn");
     (1003, "Token không hợp lệ");
     (1004, "Thiếu token xác thực");
     (1005, "Refresh token đã hết hạn");
     (1006, "Refresh token không hợp lệ");
     (1007, "Không đủ quyền truy cập");
     (1008, "Tài khoản đã bị khóa");
     (1009, "Tài khoản chưa được xác minh");
     (1010, "Phiên đăng nhập đã hết hạn");
     (1011, "API key không hợp lệ");
     (1012, "Quá nhiều lần đăng nhập thất bại");
     (1013, "Yêu cầu xác thực hai yếu tố");
     (1014, "Xác thực hai yếu tố thất bại");
     (1015, "Đăng nhập OAuth thất bại");
     (1016, "Lỗi nhà cung cấp OAuth");
     (2001, "Không tìm thấy người dùng");
     (2002, "Người dùng đã tồn tại");
     (2003, "Tài khoản không hoạt động");
     (2004, "Thông tin đăng nhập không đúng");
     (2005, "Tài khoản đã bị tạm ngưng");
     (2006, "Tài khoản đã bị xóa");
     (2007, "Email đã được sử dụng");
     (2008, "Tên đăng nhập đã được sử dụng");
     (2009, "Số điện thoại đã được sử dụng");
     (2010, "Email không đúng định dạng");
     (2011, "Mật khẩu quá yếu");
     (2012, "Mật khẩu không khớp");
     (2013, "Mật khẩu cũ không đúng");
     (2014, "Hồ sơ chưa hoàn thiện");
     (3001, "Lỗi xác thực dữ liệu");
     (3002, "Dữ liệu đầu vào không hợp lệ");
     (3003, "Thiếu trường bắt buộc");
     (3004, "Giá trị nằm ngoài phạm vi cho phép");
     (3005, "Định dạng không hợp lệ");
     (3006, "Trường quá dài");
     (3007, "Trường quá ngắn");
     (3008, "Định dạng ngày không hợp lệ");
     (3009, "Ngày không thể ở quá khứ");
     (3010, "Ngày không thể ở tương lai");
     (3011, "Loại tệp không hợp lệ");
     (3012, "Kích thước tệp quá lớn");
     (3013, "Định dạng JSON không hợp lệ");
     (3014, "Định dạng UUID không hợp lệ");
     (3015, "Số điện thoại không hợp lệ");
     (3016, "Dữ liệu bị trùng lặp");
     (4001, "Không tìm thấy tài nguyên");
     (4002, "Tài nguyên đã tồn tại");
     (4003, "Tài nguyên đang bị khóa");
     (4004, "Tài nguyên đã bị xóa");
     (4005, "Tài nguyên đã hết hạn");
     (4006, "Đã đạt giới hạn tài nguyên");
     (4007, "Tài nguyên không khả dụng");
     (4008, "Xung đột tài nguyên");
     (4009, "Phiên bản không khớp");
     (4010, "Không thể xóa tài nguyên có phụ thuộc");
     (5001, "Lỗi máy chủ nội bộ");
     (5002, "Lỗi cơ sở dữ liệu");
     (5003, "Lỗi dịch vụ bên ngoài");
     (5004, "Dịch vụ tạm thời không khả dụng");
     (5005, "Lỗi cấu hình");
     (5006, "Lỗi bộ nhớ đệm");
     (5007, "Lỗi hệ thống tệp");
     (5008, "Vượt quá giới hạn bộ nhớ");
     (5009, "Thao tác quá thời gian");
     (5010, "Lỗi hàng đợi");
     (6001, "Lỗi API bên thứ ba");
     (6002, "Lỗi cổng thanh toán");
     (6003, "Lỗi dịch vụ email");
     (6004, "Lỗi dịch vụ SMS");
     (6005, "Lỗi dịch vụ lưu trữ");
     (6006, "Lỗi dịch vụ tìm kiếm");
     (6007, "Lỗi dịch vụ thông báo");
     (6008, "Lỗi dịch vụ phân tích");
     (7001, "Thao tác không được phép");
     (7002, "Số dư không đủ");
     (7003, "Giao dịch thất bại");
     (7004, "Không thể hủy đơn hàng");
     (7005, "Không thể chỉnh sửa đơn hàng");
     (7006, "Sản phẩm hết hàng");
     (7007, "Mã giảm giá không hợp lệ");
     (7008, "Mã giảm giá đã hết hạn");
     (7009, "Chưa đạt giá trị đơn hàng tối thiểu");
     (7010, "Vượt quá số lượng tối đa");
     (7011, "Yêu cầu đăng ký gói dịch vụ");
     (7012, "Gói đăng ký đã hết hạn");
     (7013, "Tính năng không khả dụng");
     (7014, "Đã vượt quá hạn mức");
     (7015, "Đã vượt quá giới hạn tần suất")].

(** ** i18n/message-provider.ts *)

(** [builtInMessages[locale]] *)
Definition builtInMessages (locale : Locale) : option MessageMap :=
  if String.eqb locale "en" then Some enMessages
  else if String.eqb locale "vi" then Some viMessages
  else None.

(** The value a condition [if (m)] lets through: a string that is present
    and not empty. *)
Definition truthyStr (m : option string) : option string :=
  match m with
  | Some s => if String.eqb s "" then None else Some s
  | None => None
  end.

(** [Partial<I18nConfig>] *)
Module I18nConfig.
Record t : Type := mk {
  locale : option Locale;
  fallbackLocale : option Locale;
  customMessages : option (gmap Locale MessageMap)
}.
Definition empty : t := mk None None None.
End I18nConfig.

(** The state of a [BusinessMessageProvider] instance. *)
Record BusinessMessageProvider : Type := MkProvider {
  locale : Locale;
  fallbackLocale : Locale;
  customMessages : gmap Locale MessageMap
}.

Module BusinessMessageProvider.

(** [constructor(config?)] *)
Definition new (config : I18nConfig.t) : BusinessMessageProvider :=
  {| locale := I18nConfig.locale config ?? "en";
     fallbackLocale := I18nConfig.fallbackLocale config ?? "en";
     customMessages := I18nConfig.customMessages config ?? ∅ |}.

Definition setLocale (this : BusinessMessageProvider) (l : Locale)
    : BusinessMessageProvider :=
  {| locale := l;
     fallbackLocale := fallbackLocale this;
     customMessages := customMessages this |}.

Definition getLocale (this : BusinessMessageProvider) : Locale := locale this.

(** [this.customMessages.get(l)?.[code]] *)
Definition customLookup (this : BusinessMessageProvider) (l : Locale) (code : Z)
    : option string :=
  match customMessages this !! l with
  | Some messages => messages !! code
  | None => None
  end.

(** [builtInMessages[l]?.[code]] *)
Definition builtInLookup (l : Locale) (code : Z) : option string :=
  match builtInMessages l with
  | Some messages => messages !! code
  | None => None
  end.

Definition registerMessages (this : BusinessMessageProvider) (l : Locale)
    (messages : MessageMap) : BusinessMessageProvider :=
  let existing := (customMessages this !! l) ?? ∅ in
  {| locale := locale this;
     fallbackLocale := fallbackLocale this;
     customMessages := <[l := spread existing messages]> (customMessages this) |}.

(** [getMessage], for a locale as the signature types it and for every
    other identifier that is not an [inheritedName]: the result is a
    string. *)
Definition getMessage (this : BusinessMessageProvider) (code : Z)
    (l : option Locale) : string :=
  let targetLocale := l ?? locale this in
  match truthyStr (customLookup this targetLocale code) with
  | Some customMessage => customMessage
  | None =>
    match truthyStr (builtInLookup targetLocale code) with
    | Some builtInMessage => builtInMessage
    | None =>
      let unknown :=
        DEFAULT_UNKNOWN_MESSAGE targetLocale ?? DEFAULT_UNKNOWN_MESSAGE_en in
      if negb (String.eqb targetLocale (fallbackLocale this)) then
        match truthyStr (customLookup this (fallbackLocale this) code) with
        | Some fallbackCustom => fallbackCustom
        | None =>
          match truthyStr (builtInLookup (fallbackLocale this) code) with
          | Some fallbackBuiltIn => fallbackBuiltIn
          | None => unknown
          end
        end
      else unknown
    end
  end.

(** [getMessage] for any string as the locale, as the runtime has it.
    Indexing [builtInMessages] with a name that a plain object inherits
    yields that member, which has no property named by a number, so that
    [builtInMessages[l]?.[code]] is [undefined] there, as in [builtInLookup];
    the last step returns the inherited member of [DEFAULT_UNKNOWN_MESSAGE],
    which is not nullish. *)
Definition getMessageValue (this : BusinessMessageProvider) (code : Z)
    (l : option string) : MessageValue :=
  let targetLocale := l ?? locale this in
  match truthyStr (customLookup this targetLocale code) with
  | Some customMessage => Message customMessage
  | None =>
    match truthyStr (builtInLookup targetLocale code) with
    | Some builtInMessage => Message builtInMessage
    | None =>
      let unknown :=
        DEFAULT_UNKNOWN_MESSAGE_at targetLocale
          ?? Message DEFAULT_UNKNOWN_MESSAGE_en in
      if negb (String.eqb targetLocale (fallbackLocale this)) then
        match truthyStr (customLookup this (fallbackLocale this) code) with
        | Some fallbackCustom => Message fallbackCustom
        | None =>
          match truthyStr (builtInLookup (fallbackLocale this) code) with
          | Some fallbackBuiltIn => Message fallbackBuiltIn
          | None => unknown
          end
        end
      else unknown
    end
  end.

Definition hasMessage (this : BusinessMessageProvider) (code : Z)
    (l : option Locale) : bool :=
  let targetLocale := l ?? locale this in
  bool_decide (customLookup this targetLocale code ≠ None)
  || bool_decide (builtInLookup targetLocale code ≠ None).

End BusinessMessageProvider.

(** ** nextjs/helpers.ts: parsePagination *)

(** *** The runtime functions it calls *)

Definition byteOf (c : ascii) : Z := Z.of_N (N_of_ascii c).

(** White space that [parseInt] skips, by the bytes of its encoding: the
    white space and line terminators of one byte (TAB, LF, VT, FF, CR, SP), *)
Definition isWhiteSpace (c : ascii) : bool :=
  let n := byteOf c in
  ((9 <=? n) && (n <=? 13)) || (n =? 32).

(** of two bytes (U+00A0), *)
Definition isWhiteSpace2 (c1 c2 : ascii) : bool :=
  (byteOf c1 =? 194) && (byteOf c2 =? 160).

(** and of three bytes (U+1680, U+2000 to U+200A, U+2028, U+2029, U+202F,
    U+205F, U+3000, U+FEFF). *)
Definition isWhiteSpace3 (c1 c2 c3 : ascii) : bool :=
  ((byteOf c1 =? 225) && ((byteOf c2 =? 154) && (byteOf c3 =? 128)))
  || ((byteOf c1 =? 226)
      && (((byteOf c2 =? 128)
           && (((128 <=? byteOf c3) && (byteOf c3 <=? 138))
               || (byteOf c3 =? 168) || (byteOf c3 =? 169) || (byteOf c3 =? 175)))
          || ((byteOf c2 =? 129) && (byteOf c3 =? 159))))
  || ((byteOf c1 =? 227) && ((byteOf c2 =? 128) && (byteOf c3 =? 128)))
  || ((byteOf c1 =? 239) && ((byteOf c2 =? 187) && (byteOf c3 =? 191))).

Fixpoint trimStart (s : string) : string :=
  match s with
  | String c1 rest1 =>
    if isWhiteSpace c1 then trimStart rest1
    else
      match rest1 with
      | String c2 rest2 =>
        if isWhiteSpace2 c1 c2 then trimStart rest2
        else
          match rest2 with
          | String c3 rest3 =>
            if isWhiteSpace3 c1 c2 c3 then trimStart rest3 else s
          | EmptyString => s
          end
      | EmptyString => s
      end
  | EmptyString => EmptyString
  end.

Definition digitValue (c : ascii) : option Z :=
  let n := byteOf c in
  if (48 <=? n) && (n <=? 57) then Some (n - 48) else None.

(** The value of the longest prefix of decimal digits of [s], continuing
    from [acc]; [None] while no digit has been read. *)
Fixpoint parseDigits (s : string) (acc : option Z) : option Z :=
  match s with
  | String c rest =>
    match digitValue c with
    | Some d => parseDigits rest (Some (10 * (acc ?? 0) + d))
    | None => acc
    end
  | EmptyString => acc
  end.

(** [parseInt(s, 10)]: skip white space, read a sign, read digits up to the
    first character that is not one; [NaN] when there is no digit, and
    otherwise the Number of the signed digits. *)
Definition parseInt (s : string) : jsnum :=
  let trimmed := trimStart s in
  let '(sign, body) :=
    match trimmed with
    | String "-" rest => (-1, rest)
    | String "+" rest => (1, rest)
    | _ => (1, trimmed)
    end in
  match parseDigits body None with
  | Some n => js_number_of_Z (sign * n)
  | None => JNaN
  end.

(** [Number.isSafeInteger(n)] for an integer [n]. *)
Definition isSafeInteger (n : Z) : bool := Z.abs n <=? 2 ^ 53 - 1.

(** [String(n)] for an integer [n].  For a safe integer it is the decimal
    digits of [n], ["-"] in front of a negative one.  Beyond, the runtime
    prints the shortest digits that read back as the same double, and from
    [10^21] on in exponent notation: [longForm] is that part of
    [Number::toString], about which nothing is assumed. *)
Definition String_of_number (longForm : Z -> string) (n : Z) : string :=
  if isSafeInteger n then NilZero.string_of_int (Z.to_int n) else longForm n.

(** A [Request], reduced to what the helper reads of it: the decoded
    [name=value] pairs of the query of its URL, in order, each string as
    the bytes of its UTF-8 encoding. *)
Record Request : Type := MkRequest {
  searchParams : list (string * string)
}.

(** [url.searchParams.get(name)]: the first value of that name, or [null]. *)
Fixpoint searchParams_get (params : list (string * string)) (name : string)
    : option string :=
  match params with
  | [] => None
  | (k, v) :: rest => if String.eqb k name then Some v else searchParams_get rest name
  end.

(** [a || b] on a string that may be [null]: [b] when [a] is [null] or
    empty. *)
Definition orElse (a : option string) (b : string) : string :=
  match truthyStr a with
  | Some s => s
  | None => b
  end.

Module PaginationOptions.
Record t : Type := mk {
  defaultPage : option Z;
  defaultLimit : option Z;
  maxLimit : option Z
}.
End PaginationOptions.

Module Pagination.
Record t : Type := mk {
  page : jsnum;
  limit : jsnum
}.
End Pagination.

(** [options?.field] *)
Definition optField {A : Type} (options : option PaginationOptions.t)
    (field : PaginationOptions.t -> option A) : option A :=
  match options with
  | Some o => field o
  | None => None
  end.

Definition parsePagination (longForm : Z -> string) (request : Request)
    (options : option PaginationOptions.t) : Pagination.t :=
  let url := searchParams request in
  let defaultPage := optField options PaginationOptions.defaultPage ?? 1 in
  let defaultLimit := optField options PaginationOptions.defaultLimit ?? 10 in
  let maxLimit := optField options PaginationOptions.maxLimit ?? 100 in
  let page :=
    js_max_int 1
      (parseInt (orElse (searchParams_get url "page")
                        (String_of_number longForm defaultPage))) in
  let limit :=
    js_min_int maxLimit
      (js_max_int 1
         (parseInt (orElse (searchParams_get url "limit")
                           (String_of_number longForm defaultLimit)))) in
  Pagination.mk page limit.

(** * Notions used to state the properties *)

(** The discriminant invariant of an envelope: [success] holds exactly when
    no [error] is present, and a failed envelope carries no [data]. *)
Definition consistent {D : Type} (r : ApiResponse D) : Prop :=
  (success r = true <-> error r = None)
  /\ (success r = false -> data r = None).

(** [n] is [ceil(total / limit)] for a positive [limit]: the least integer
    that is at least the exact quotient. *)
Definition isCeilOf (total limit n : Z) : Prop :=
  (n - 1) * limit < total <= n * limit.

(** The pagination fields that [paginated] derives. *)
Definition derivedKeys : list string :=
  ["totalPages"; "hasNextPage"; "hasPreviousPage"].

(** The reading "[totalPages] is the ceiling of [total / limit] for every
    page and limit of at least 1 and every total of at least 0". *)
Definition totalPagesIsCeiling : Prop :=
  forall (T : Type) (items : list T) (page limit total : Z),
    1 <= page -> 1 <= limit -> 0 <= total ->
    exists (m : PaginationMeta) (totalPages : Z),
      meta (ApiResponse.paginated
              (PaginatedParams.mk items None None page limit total None)) = Some m
      /\ isCeilOf total limit totalPages
      /\ m !! "totalPages" = Some (PNum (JInt totalPages)).

(** The policy "computed fields win": whatever extra metadata the caller
    passes, the derived keys of the result hold the computed values. *)
Definition computedFieldsWin : Prop :=
  forall (T : Type) (p : PaginatedParams.t T) (k : string) (m : PaginationMeta),
    In k derivedKeys ->
    meta (ApiResponse.paginated p) = Some m ->
    m !! k = ApiResponse.computedMeta (PaginatedParams.page p)
               (PaginatedParams.limit p) (PaginatedParams.total p) !! k.

(** Reading the plain object that [toJSON] returns as constructor parameters
    again: [o.k] is [undefined] when [o] has no property [k] (or one of
    another type than the parameter's). *)
Definition asParams {D : Type} (o : PlainObject D) : ApiResponseParams.t D :=
  ApiResponseParams.mk
    (match getProp o "success" with Some (FBool b) => b | _ => false end)
    (match getProp o "data" with Some (FData d) => Some d | _ => None end)
    (match getProp o "message" with Some (FStr s) => Some s | _ => None end)
    (match getProp o "statusCode" with Some (FNum z) => Some z | _ => None end)
    (match getProp o "meta" with Some (FMeta m) => Some m | _ => None end)
    (match getProp o "error" with Some (FError e) => Some e | _ => None end).

(** What a table that may be missing holds for a code. *)
Definition tableEntry (table : option MessageMap) (code : Z) : option string :=
  match table with
  | Some messages => messages !! code
  | None => None
  end.

(** The resolution order, worded as the specification does: the tables to
    consult, in order: the override table and the built-in table of the
    requested locale, then, when the fallback locale differs, its override
    table and its built-in table. *)
Definition resolutionOrder (this : BusinessMessageProvider) (target : Locale)
    (code : Z) : list (option string) :=
  [tableEntry (customMessages this !! target) code;
   tableEntry (builtInMessages target) code]
  ++ (if bool_decide (fallbackLocale this = target) then []
      else [tableEntry (customMessages this !! fallbackLocale this) code;
            tableEntry (builtInMessages (fallbackLocale this)) code]).

(** The first step that hits; a step hits when its table yields a message
    that is not empty. *)
Fixpoint firstHit (steps : list (option string)) : option string :=
  match steps with
  | [] => None
  | Some m :: rest => if String.eqb m "" then firstHit rest else Some m
  | None :: rest => firstHit rest
  end.

(** The sentinel of a locale, the one of ['en'] when it has none. *)
Definition unknownSentinel (target : Locale) : string :=
  match DEFAULT_UNKNOWN_MESSAGE target with
  | Some s => s
  | None => "Unknown error"
  end.

Definition resolve (this : BusinessMessageProvider) (code : Z)
    (l : option Locale) : string :=
  let target := l ?? locale this in
  firstHit (resolutionOrder this target code) ?? unknownSentinel target.

(** The reading "for every code and every requested locale, the result is
    the first hit of the resolution order, or else a sentinel". *)
Definition resolutionCoversEveryLocale : Prop :=
  forall (this : BusinessMessageProvider) (code : Z) (l : option string),
    BusinessMessageProvider.getMessageValue this code l
    = Message (resolve this code l).



(** The reading "registering for one locale leaves resolution in every other
    locale unchanged". *)
Definition registrationFramesOtherLocales : Prop :=
  forall (this : BusinessMessageProvider) (l : Locale) (messages : MessageMap)
         (l' : Locale) (code : Z),
    l' <> l ->
    BusinessMessageProvider.getMessage
      (BusinessMessageProvider.registerMessages this l messages) code (Some l')
    = BusinessMessageProvider.getMessage this code (Some l').

(** The value of a decimal numeral read digit by digit after [acc]. *)
Fixpoint uintValue (d : Decimal.uint) (acc : Z) : Z :=
  match d with
  | Decimal.Nil => acc
  | Decimal.D0 l => uintValue l (10 * acc + 0)
  | Decimal.D1 l => uintValue l (10 * acc + 1)
  | Decimal.D2 l => uintValue l (10 * acc + 2)
  | Decimal.D3 l => uintValue l (10 * acc + 3)
  | Decimal.D4 l => uintValue l (10 * acc + 4)
  | Decimal.D5 l => uintValue l (10 * acc + 5)
  | Decimal.D6 l => uintValue l (10 * acc + 6)
  | Decimal.D7 l => uintValue l (10 * acc + 7)
  | Decimal.D8 l => uintValue l (10 * acc + 8)
  | Decimal.D9 l => uintValue l (10 * acc + 9)
  end.

(** The strings [parsePagination] hands to [parseInt]. *)
Definition pageSource (longForm : Z -> string) (request : Request)
    (options : option PaginationOptions.t) : string :=
  orElse (searchParams_get (searchParams request) "page")
         (String_of_number longForm
            (optField options PaginationOptions.defaultPage ?? 1)).

Definition limitSource (longForm : Z -> string) (request : Request)
    (options : option PaginationOptions.t) : string :=
  orElse (searchParams_get (searchParams request) "limit")
         (String_of_number longForm
            (optField options PaginationOptions.defaultLimit ?? 10)).

Definition maxLimitOf (options : option PaginationOptions.t) : Z :=
  optField options PaginationOptions.maxLimit ?? 100.

(** The first byte of a white space of more than one byte. *)
Definition isLead (c : ascii) : bool :=
  (byteOf c =? 194) || (byteOf c =? 225) || (byteOf c =? 226)
  || (byteOf c =? 227) || (byteOf c =? 239).

(** * The rest of the library *)

(** ** constants/http-status.ts, in full *)

(** The object [HttpStatus]: its keys and values, in order. *)
Definition HttpStatus_entries : list (string * Z) :=
    [("CONTINUE", 100);
     ("SWITCHING_PROTOCOLS", 101);
     ("PROCESSING", 102);
     ("OK", 200);
     ("CREATED", 201);
     ("ACCEPTED", 202);
     ("NON_AUTHORITATIVE_INFORMATION", 203);
     ("NO_CONTENT", 204);
     ("RESET_CONTENT", 205);
     ("PARTIAL_CONTENT", 206);
     ("MULTIPLE_CHOICES", 300);
     ("MOVED_PERMANENTLY", 301);
     ("FOUND", 302);
     ("SEE_OTHER", 303);
     ("NOT_MODIFIED", 304);
     ("TEMPORARY_REDIRECT", 307);
     ("PERMANENT_REDIRECT", 308);
     ("BAD_REQUEST", 400);
     ("UNAUTHORIZED", 401);
     ("PAYMENT_REQUIRED", 402);
     ("FORBIDDEN", 403);
     ("NOT_FOUND", 404);
     ("METHOD_NOT_ALLOWED", 405);
     ("NOT_ACCEPTABLE", 406);
     ("PROXY_AUTHENTICATION_REQUIRED", 407);
     ("REQUEST_TIMEOUT", 408);
     ("CONFLICT", 409);
     ("GONE", 410);
     ("LENGTH_REQUIRED", 411);
     ("PRECONDITION_FAILED", 412);
     ("PAYLOAD_TOO_LARGE", 413);
     ("URI_TOO_LONG", 414);
     ("UNSUPPORTED_MEDIA_TYPE", 415);
     ("RANGE_NOT_SATISFIABLE", 416);
     ("EXPECTATION_FAILED", 417);
     ("I_AM_A_TEAPOT", 418);
     ("UNPROCESSABLE_ENTITY", 422);
     ("LOCKED", 423);
     ("FAILED_DEPENDENCY", 424);
     ("TOO_EARLY", 425);
     ("UPGRADE_REQUIRED", 426);
     ("PRECONDITION_REQUIRED", 428);
     ("TOO_MANY_REQUESTS", 429);
     ("REQUEST_HEADER_FIELDS_TOO_LARGE", 431);
     ("UNAVAILABLE_FOR_LEGAL_REASONS", 451);
     ("INTERNAL_SERVER_ERROR", 500);
     ("NOT_IMPLEMENTED", 501);
     ("BAD_GATEWAY", 502);
     ("SERVICE_UNAVAILABLE", 503);
     ("GATEWAY_TIMEOUT", 504);
     ("HTTP_VERSION_NOT_SUPPORTED", 505);
     ("VARIANT_ALSO_NEGOTIATES", 506);
     ("INSUFFICIENT_STORAGE", 507);
     ("LOOP_DETECTED", 508);
     ("NOT_EXTENDED", 510);
     ("NETWORK_AUTHENTICATION_REQUIRED", 511)].

(** The table [messages] of [getHttpStatusMessage]. *)
Definition httpStatusMessages : gmap Z string :=
  list_to_map
    [(100, "Continue");
     (101, "Switching Protocols");
     (102, "Processing");
     (200, "OK");
     (201, "Created");
     (202, "Accepted");
     (203, "Non-Authoritative Information");
     (204, "No Content");
     (205, "Reset Content");
     (206, "Partial Content");
     (300, "Multiple Choices");
     (301, "Moved Permanently");
     (302, "Found");
     (303, "See Other");
     (304, "Not Modified");
     (307, "Temporary Redirect");
     (308, "Permanent Redirect");
     (400, "Bad Request");
     (401, "Unauthorized");
     (402, "Payment Required");
     (403, "Forbidden");
     (404, "Not Found");
     (405, "Method Not Allowed");
     (406, "Not Acceptable");
     (407, "Proxy Authentication Required");
     (408, "Request Timeout");
     (409, "Conflict");
     (410, "Gone");
     (411, "Length Required");
     (412, "Precondition Failed");
     (413, "Payload Too Large");
     (414, "URI Too Long");
     (415, "Unsupported Media Type");
     (416, "Range Not Satisfiable");
     (417, "Expectation Failed");
     (418, "I'm a Teapot");
     (422, "Unprocessable Entity");
     (423, "Locked");
     (424, "Failed Dependency");
     (425, "Too Early");
     (426, "Upgrade Required");
     (428, "Precondition Required");
     (429, "Too Many Requests");
     (431, "Request Header Fields Too Large");
     (451, "Unavailable For Legal Reasons");
     (500, "Internal Server Error");
     (501, "Not Implemented");
     (502, "Bad Gateway");
     (503, "Service Unavailable");
     (504, "Gateway Timeout");
     (505, "HTTP Version Not Supported");
     (506, "Variant Also Negotiates");
     (507, "Insufficient Storage");
     (508, "Loop Detected");
     (510, "Not Extended");
     (511, "Network Authentication Required")].

(** ** constants/business-codes.ts, in full *)

(** The object [BusinessCode]: its keys and values, in order. *)
Definition BusinessCode_entries : list (string * Z) :=
    [("SUCCESS", 0);
     ("CREATED", 1);
     ("UPDATED", 2);
     ("DELETED", 3);
     ("ACCEPTED", 4);
     ("NO_CHANGE", 5);
     ("AUTH_FAILED", 1001);
     ("TOKEN_EXPIRED", 1002);
     ("TOKEN_INVALID", 1003);
     ("TOKEN_MISSING", 1004);
     ("REFRESH_TOKEN_EXPIRED", 1005);
     ("REFRESH_TOKEN_INVALID", 1006);
     ("PERMISSION_DENIED", 1007);
     ("ACCOUNT_LOCKED", 1008);
     ("ACCOUNT_NOT_VERIFIED", 1009);
     ("SESSION_EXPIRED", 1010);
     ("INVALID_API_KEY", 1011);
     ("AUTH_RATE_LIMITED", 1012);
     ("TWO_FACTOR_REQUIRED", 1013);
     ("TWO_FACTOR_FAILED", 1014);
     ("OAUTH_FAILED", 1015);
     ("OAUTH_PROVIDER_ERROR", 1016);
     ("USER_NOT_FOUND", 2001);
     ("USER_ALREADY_EXISTS", 2002);
     ("USER_INACTIVE", 2003);
     ("INVALID_CREDENTIALS", 2004);
     ("USER_SUSPENDED", 2005);
     ("USER_DELETED", 2006);
     ("EMAIL_ALREADY_EXISTS", 2007);
     ("USERNAME_ALREADY_EXISTS", 2008);
     ("PHONE_ALREADY_EXISTS", 2009);
     ("INVALID_EMAIL", 2010);
     ("WEAK_PASSWORD", 2011);
     ("PASSWORD_MISMATCH", 2012);
     ("INCORRECT_OLD_PASSWORD", 2013);
     ("PROFILE_INCOMPLETE", 2014);
     ("VALIDATION_ERROR", 3001);
     ("INVALID_INPUT", 3002);
     ("MISSING_REQUIRED_FIELD", 3003);
     ("VALUE_OUT_OF_RANGE", 3004);
     ("INVALID_FORMAT", 3005);
     ("FIELD_TOO_LONG", 3006);
     ("FIELD_TOO_SHORT", 3007);
     ("INVALID_DATE_FORMAT", 3008);
     ("DATE_IN_PAST", 3009);
     ("DATE_IN_FUTURE", 3010);
     ("INVALID_FILE_TYPE", 3011);
     ("FILE_TOO_LARGE", 3012);
     ("INVALID_JSON", 3013);
     ("INVALID_UUID", 3014);
     ("INVALID_PHONE_NUMBER", 3015);
     ("DUPLICATE_ENTRY", 3016);
     ("RESOURCE_NOT_FOUND", 4001);
     ("RESOURCE_ALREADY_EXISTS", 4002);
     ("RESOURCE_LOCKED", 4003);
     ("RESOURCE_DELETED", 4004);
     ("RESOURCE_EXPIRED", 4005);
     ("RESOURCE_LIMIT_REACHED", 4006);
     ("RESOURCE_UNAVAILABLE", 4007);
     ("RESOURCE_CONFLICT", 4008);
     ("VERSION_MISMATCH", 4009);
     ("HAS_DEPENDENCIES", 4010);
     ("INTERNAL_ERROR", 5001);
     ("DATABASE_ERROR", 5002);
     ("EXTERNAL_SERVICE_ERROR", 5003);
     ("SERVICE_UNAVAILABLE", 5004);
     ("CONFIG_ERROR", 5005);
     ("CACHE_ERROR", 5006);
     ("FILE_SYSTEM_ERROR", 5007);
     ("MEMORY_LIMIT_EXCEEDED", 5008);
     ("TIMEOUT_ERROR", 5009);
     ("QUEUE_ERROR", 5010);
     ("THIRD_PARTY_API_ERROR", 6001);
     ("PAYMENT_GATEWAY_ERROR", 6002);
     ("EMAIL_SERVICE_ERROR", 6003);
     ("SMS_SERVICE_ERROR", 6004);
     ("STORAGE_SERVICE_ERROR", 6005);
     ("SEARCH_SERVICE_ERROR", 6006);
     ("NOTIFICATION_SERVICE_ERROR", 6007);
     ("ANALYTICS_SERVICE_ERROR", 6008);
     ("OPERATION_NOT_ALLOWED", 7001);
     ("INSUFFICIENT_BALANCE", 7002);
     ("TRANSACTION_FAILED", 7003);
     ("ORDER_CANNOT_CANCEL", 7004);
     ("ORDER_CANNOT_MODIFY", 7005);
     ("OUT_OF_STOCK", 7006);
     ("COUPON_INVALID", 7007);
     ("COUPON_EXPIRED", 7008);
     ("MINIMUM_ORDER_NOT_MET", 7009);
     ("MAX_QUANTITY_EXCEEDED", 7010);
     ("SUBSCRIPTION_REQUIRED", 7011);
     ("SUBSCRIPTION_EXPIRED", 7012);
     ("FEATURE_NOT_AVAILABLE", 7013);
     ("QUOTA_EXCEEDED", 7014);
     ("RATE_LIMIT_EXCEEDED", 7015)].

(** The table [businessCodeMessages]. *)
Definition businessCodeMessages : gmap Z string :=
  list_to_map
    [(0, "Operation completed successfully");
     (1, "Resource created successfully");
     (2, "Resource updated successfully");
     (3, "Resource deleted successfully");
     (4, "Operation accepted for processing");
     (5, "No changes were made");
     (1001, "Authentication failed");
     (1002, "Access token has expired");
     (1003, "Access token is invalid");
     (1004, "Access token is missing");
     (1005, "Refresh token has expired");
     (1006, "Refresh token is invalid");
     (1007, "Insufficient permissions");
     (1008, "Account is locked");
     (1009, "Account is not verified");
     (1010, "Session has expired");
     (1011, "Invalid API key");
     (1012, "Too many authentication attempts");
     (1013, "Two-factor authentication required");
     (1014, "Two-factor authentication failed");
     (1015, "OAuth authentication failed");
     (1016, "OAuth provider error");
     (2001, "User not found");
     (2002, "User already exists");
     (2003, "User account is inactive");
     (2004, "Invalid credentials");
     (2005, "User account is suspended");
     (2006, "User account is deleted");
     (2007, "Email already in use");
     (2008, "Username already in use");
     (2009, "Phone number already in use");
     (2010, "Invalid email format");
     (2011, "Password is too weak");
     (2012, "Passwords do not match");
     (2013, "Old password is incorrect");
     (2014, "Profile is incomplete");
     (3001, "Validation error");
     (3002, "Invalid input");
     (3003, "Required field is missing");
     (3004, "Value is out of range");
     (3005, "Invalid format");
     (3006, "Field is too long");
     (3007, "Field is too short");
     (3008, "Invalid date format");
     (3009, "Date cannot be in the past");
     (3010, "Date cannot be in the future");
     (3011, "Invalid file type");
     (3012, "File size is too large");
     (3013, "Invalid JSON format");
     (3014, "Invalid UUID format");
     (3015, "Invalid phone number format");
     (3016, "Duplicate entry");
     (4001, "Resource not found");
     (4002, "Resource already exists");
     (4003, "Resource is locked");
     (4004, "Resource has been deleted");
     (4005, "Resource has expired");
     (4006, "Resource limit reached");
     (4007, "Resource is not available");
     (4008, "Resource conflict");
     (4009, "Version mismatch");
     (4010, "Cannot delete resource with dependencies");
     (5001, "Internal server error");
     (5002, "Database error");
     (5003, "External service error");
     (5004, "Service temporarily unavailable");
     (5005, "Configuration error");
     (5006, "Cache error");
     (5007, "File system error");
     (5008, "Memory limit exceeded");
     (5009, "Operation timed out");
     (5010, "Queue error");
     (6001, "Third-party API error");
     (6002, "Payment gateway error");
     (6003, "Email service error");
     (6004, "SMS service error");
     (6005, "Storage service error");
     (6006, "Search service error");
     (6007, "Notification service error");
     (6008, "Analytics service error");
     (7001, "Operation not allowed");
     (7002, "Insufficient balance");
     (7003, "Transaction failed");
     (7004, "Order cannot be cancelled");
     (7005, "Order cannot be modified");
     (7006, "Item out of stock");
     (7007, "Coupon is invalid");
     (7008, "Coupon has expired");
     (7009, "Minimum order not met");
     (7010, "Maximum quantity exceeded");
     (7011, "Subscription required");
     (7012, "Subscription has expired");
     (7013, "Feature not available");
     (7014, "Quota exceeded");
     (7015, "Rate limit exceeded")].

(** [a || b] on a number that may be [undefined]: [b] when [a] is
    [undefined] or 0. *)
Definition orElseNum (a : option Z) (b : Z) : Z :=
  match a with
  | Some z => if z =? 0 then b else z
  | None => b
  end.

Definition getHttpStatusMessage (statusCode : Z) : string :=
  orElse (httpStatusMessages !! statusCode) "Unknown Status".

Definition isSuccessStatus (statusCode : Z) : bool :=
  (statusCode >=? 200) && (statusCode <? 300).
Definition isClientError (statusCode : Z) : bool :=
  (statusCode >=? 400) && (statusCode <? 500).
Definition isServerError (statusCode : Z) : bool :=
  (statusCode >=? 500) && (statusCode <? 600).
Definition isRedirect (statusCode : Z) : bool :=
  (statusCode >=? 300) && (statusCode <? 400).

Definition getBusinessCodeMessage (code : Z) : string :=
  orElse (businessCodeMessages !! code) "Unknown error".

(** The values of an object of constants. *)
Definition valuesOf (entries : list (string * Z)) : list Z := map snd entries.

(** ** i18n/message-provider.ts: the module-level instance *)

Module I18n.

(** [messageProvider = new BusinessMessageProvider()] *)
Definition messageProvider : BusinessMessageProvider :=
  BusinessMessageProvider.new I18nConfig.empty.

(** [getLocalizedMessage], [setLocale] and [registerMessages] act on the
    module-level instance, whose current state is passed in and, by the two
    that mutate, returned. *)
Definition getLocalizedMessage (instance : BusinessMessageProvider) (code : Z)
    (l : option Locale) : string :=
  BusinessMessageProvider.getMessage instance code l.

Definition setLocale (instance : BusinessMessageProvider) (l : Locale)
    : BusinessMessageProvider :=
  BusinessMessageProvider.setLocale instance l.

Definition registerMessages (instance : BusinessMessageProvider) (l : Locale)
    (messages : MessageMap) : BusinessMessageProvider :=
  BusinessMessageProvider.registerMessages instance l messages.

End I18n.

(** ** i18n/react/BusinessMessageProvider.tsx *)

Module BusinessMessageProviderProps.
Record t : Type := mk {
  locale : Locale;
  customMessages : option MessageMap;
  fallbackLocale : option Locale
}.
End BusinessMessageProviderProps.

(** What the hook reports of a value that was thrown or rejected. *)
Inductive CaughtValue : Type :=
  | CaughtError (message : string)
  | CaughtString (s : string)
  | CaughtOther.

Module BusinessMessageContext.

(** The provider instance that the component builds from its props; an
    object of custom messages, even an empty one, is truthy. *)
Definition provider (props : BusinessMessageProviderProps.t)
    : BusinessMessageProvider :=
  BusinessMessageProvider.new
    (I18nConfig.mk
       (Some (BusinessMessageProviderProps.locale props))
       (Some (BusinessMessageProviderProps.fallbackLocale props ?? "en"))
       (match BusinessMessageProviderProps.customMessages props with
        | Some messages =>
            Some {[ BusinessMessageProviderProps.locale props := messages ]}
        | None => None
        end)).

Definition getMessage (props : BusinessMessageProviderProps.t) (code : Z) : string :=
  BusinessMessageProvider.getMessage (provider props) code None.

(** [getResponseMessage(response)]; the response has the shape of the
    library's envelope. *)
Definition getResponseMessage {D : Type} (props : BusinessMessageProviderProps.t)
    (response : ApiResponse D) : string :=
  if success response then
    message response ?? BusinessMessageProvider.getMessage (provider props) 0 None
  else
    match
      match error response with
      | Some e => ErrorDetails.code e
      | None => None
      end
    with
    | Some code => BusinessMessageProvider.getMessage (provider props) code None
    | None =>
        message response
          ?? BusinessMessageProvider.getMessage (provider props) 5001 None
    end.

Definition getErrorMessage (props : BusinessMessageProviderProps.t)
    (error : CaughtValue) : string :=
  match error with
  | CaughtError message => message
  | CaughtString s => s
  | CaughtOther => BusinessMessageProvider.getMessage (provider props) 5001 None
  end.

End BusinessMessageContext.

(** ** nestjs/exceptions.ts *)

Module BusinessException.

Record t : Type := mk {
  businessCode : Z;
  message : string;
  statusCode : Z;
  details : option (gmap string JsPrim);
  name : string
}.

(** [constructor(businessCode, message?, statusCode = BAD_REQUEST, details?)] *)
Definition new (businessCode : Z) (message : option string)
    (statusCode : option Z) (details : option (gmap string JsPrim)) : t :=
  mk businessCode
     (message ?? getBusinessCodeMessage businessCode)
     (statusCode ?? HttpStatus.BAD_REQUEST)
     details
     "BusinessException".

(** [this.name = n], run by a subclass after [super(...)]. *)
Definition named (e : t) (n : string) : t :=
  mk (businessCode e) (message e) (statusCode e) (details e) n.

End BusinessException.

Definition ValidationException (details : gmap string JsPrim)
    (message : option string) : BusinessException.t :=
  BusinessException.named
    (BusinessException.new BusinessCode.VALIDATION_ERROR
       (Some (message ?? "Validation failed"))
       (Some HttpStatus.UNPROCESSABLE_ENTITY)
       (Some details))
    "ValidationException".

Definition AuthException (businessCode : option Z) (message : option string)
    : BusinessException.t :=
  BusinessException.named
    (BusinessException.new (businessCode ?? BusinessCode.AUTH_FAILED) message
       (Some HttpStatus.UNAUTHORIZED) None)
    "AuthException".

Definition ForbiddenException (message : option string) : BusinessException.t :=
  BusinessException.named
    (BusinessException.new BusinessCode.PERMISSION_DENIED
       (Some (message ?? "Access denied")) (Some HttpStatus.FORBIDDEN) None)
    "ForbiddenException".

Definition NotFoundException (message : option string) (businessCode : option Z)
    : BusinessException.t :=
  BusinessException.named
    (BusinessException.new (businessCode ?? BusinessCode.RESOURCE_NOT_FOUND)
       (Some (message ?? "Resource not found")) (Some HttpStatus.NOT_FOUND) None)
    "NotFoundException".

Definition ConflictException (message : option string) (businessCode : option Z)
    : BusinessException.t :=
  BusinessException.named
    (BusinessException.new (businessCode ?? BusinessCode.RESOURCE_CONFLICT)
       (Some (message ?? "Resource conflict")) (Some HttpStatus.CONFLICT) None)
    "ConflictException".

Definition RateLimitException (message : option string) : BusinessException.t :=
  BusinessException.named
    (BusinessException.new BusinessCode.RATE_LIMIT_EXCEEDED
       (Some (message ?? "Too many requests"))
       (Some HttpStatus.TOO_MANY_REQUESTS) None)
    "RateLimitException".

Definition InternalServerException (message : option string)
    (businessCode : option Z) : BusinessException.t :=
  BusinessException.named
    (BusinessException.new (businessCode ?? BusinessCode.INTERNAL_ERROR)
       (Some (message ?? "Internal server error"))
       (Some HttpStatus.INTERNAL_SERVER_ERROR) None)
    "InternalServerException".

Definition BadRequestException (message : option string)
    (businessCode : option Z) : BusinessException.t :=
  BusinessException.named
    (BusinessException.new (businessCode ?? BusinessCode.INVALID_INPUT)
       (Some (message ?? "Bad request")) (Some HttpStatus.BAD_REQUEST) None)
    "BadRequestException".

Definition ServiceUnavailableException (message : option string)
    (businessCode : option Z) : BusinessException.t :=
  BusinessException.named
    (BusinessException.new (businessCode ?? BusinessCode.SERVICE_UNAVAILABLE)
       (Some (message ?? "Service unavailable"))
       (Some HttpStatus.SERVICE_UNAVAILABLE) None)
    "ServiceUnavailableException".

(** ** nestjs/exception-filter.ts *)

(** [resp.message] of the object an [HttpException] carries: missing, a
    string, or the array of messages a validation pipe produces. *)
Inductive ResponseMessage : Type :=
  | MessageAbsent
  | MessageString (s : string)
  | MessageArray (items : list JsPrim).

(** [exception.getResponse()]: a string, an object other than [null], or a
    value whose [typeof] is neither ['string'] nor ['object'].  ([null],
    whose [typeof] is ['object'] too, is the case [HttpWithNullResponse] of
    [Raised] below.) *)
Inductive HttpExceptionResponse : Type :=
  | ResponseString (s : string)
  | ResponseObject (message : ResponseMessage)
  | ResponseOther.

(** What [catch] is handed, by the [instanceof] test it passes first.  The
    [stack] is the string the engine recorded, if any. *)
Inductive Thrown : Type :=
  | ThrownBusiness (e : BusinessException.t) (stack : option string)
  | ThrownHttp (status : Z) (response : HttpExceptionResponse) (message : string)
      (stack : option string)
  | ThrownError (message : string) (stack : option string)
  | ThrownOther.

(** What reaches [catch]: an exception of one of the classes above, or an
    [HttpException] whose [getResponse()] is [null]. *)
Inductive Raised : Type :=
  | Classified (exception : Thrown)
  | HttpWithNullResponse (status : Z) (message : string) (stack : option string).

(** How a callback ends. *)
Inductive Completion : Type :=
  | Returned
  | Threw.

Module ApiExceptionFilterOptions.
Record t : Type := mk {
  includeStack : option bool;
  logger : option (Thrown -> string -> Completion)
}.
Definition empty : t := mk None None.
End ApiExceptionFilterOptions.

(** [response.status(s).json(body)] *)
Module Sent.
Record t : Type := mk {
  status : Z;
  json : ApiResponse JsNull
}.
End Sent.

(** How [catch] ends: with the response handed over, with what the logger
    threw, or with the [TypeError] of reading a property of [null]. *)
Inductive FilterOutcome : Type :=
  | Responded (sent : Sent.t)
  | LoggerThrew
  | ThrewTypeError.

Module ApiExceptionFilter.

(** The table [mapping]; the keys are the values of Nest's [HttpStatus]. *)
Definition mapping : gmap Z Z :=
  list_to_map
    [(400, BusinessCode.INVALID_INPUT);
     (401, BusinessCode.AUTH_FAILED);
     (403, BusinessCode.PERMISSION_DENIED);
     (404, BusinessCode.RESOURCE_NOT_FOUND);
     (409, BusinessCode.RESOURCE_CONFLICT);
     (422, BusinessCode.VALIDATION_ERROR);
     (429, BusinessCode.RATE_LIMIT_EXCEEDED);
     (500, BusinessCode.INTERNAL_ERROR);
     (503, BusinessCode.SERVICE_UNAVAILABLE)].

Definition mapHttpStatusToBusinessCode (httpStatus : Z) : Z :=
  orElseNum (mapping !! httpStatus) BusinessCode.INTERNAL_ERROR.

(** [apiResponse.error = { ...apiResponse.error, stack }] *)
Definition setStack (apiResponse : ApiResponse JsNull) (stack : string)
    : ApiResponse JsNull :=
  let previous := error apiResponse ?? ErrorDetails.mk None None None in
  MkApiResponse (success apiResponse) (data apiResponse) (message apiResponse)
    (statusCode apiResponse) (meta apiResponse)
    (Some (ErrorDetails.mk (ErrorDetails.code previous)
             (ErrorDetails.details previous) (Some stack))).

(** [if (this.options.includeStack && exception.stack) ...] *)
Definition attachStack (options : ApiExceptionFilterOptions.t)
    (stack : option string) (apiResponse : ApiResponse JsNull)
    : ApiResponse JsNull :=
  match ApiExceptionFilterOptions.includeStack options, truthyStr stack with
  | Some true, Some s => setStack apiResponse s
  | _, _ => apiResponse
  end.

Section Catch.

(** How an array of messages is stored as a value of type [unknown] in the
    details. *)
Variable arrayValue : list JsPrim -> JsPrim.

(** The envelope [catch] builds, before logging and sending, for an
    exception that it can read. *)
Definition toApiResponse (options : ApiExceptionFilterOptions.t)
    (exception : Thrown) : ApiResponse JsNull :=
  match exception with
  | ThrownBusiness e stack =>
      attachStack options stack
        (ApiResponse.error
           (ErrorParams.mk (Some (BusinessException.message e))
              (Some (BusinessException.businessCode e))
              (BusinessException.details e)
              (Some (BusinessException.statusCode e))))
  | ThrownHttp status exceptionResponse exceptionMessage _ =>
      let '(message, details) :=
        match exceptionResponse with
        | ResponseString s => (s, None)
        | ResponseObject (MessageArray items) =>
            ("Validation failed", Some {[ "errors" := arrayValue items ]})
        | ResponseObject (MessageString s) =>
            (orElse (Some s) exceptionMessage, None)
        | ResponseObject MessageAbsent => (exceptionMessage, None)
        | ResponseOther => (exceptionMessage, None)
        end in
      ApiResponse.error
        (ErrorParams.mk (Some message)
           (Some (mapHttpStatusToBusinessCode status))
           details
           (Some status))
  | ThrownError message stack =>
      attachStack options stack
        (ApiResponse.error
           (ErrorParams.mk (Some (orElse (Some message) "Internal server error"))
              (Some BusinessCode.INTERNAL_ERROR)
              None
              (Some HttpStatus.INTERNAL_SERVER_ERROR)))
  | ThrownOther =>
      ApiResponse.error
        (ErrorParams.mk (Some "Internal server error")
           (Some BusinessCode.INTERNAL_ERROR)
           None
           (Some HttpStatus.INTERNAL_SERVER_ERROR))
  end.

(** The first part of [catch]: the envelope, or [None] when building it
    throws: for an [HttpException] whose response is [null] the branch
    [typeof exceptionResponse === 'object'] is taken and [resp.message]
    throws a [TypeError]. *)
Definition buildEnvelope (options : ApiExceptionFilterOptions.t)
    (raised : Raised) : option (ApiResponse JsNull) :=
  match raised with
  | Classified exception => Some (toApiResponse options exception)
  | HttpWithNullResponse _ _ _ => None
  end.

(** [catch(exception, host)]: the envelope is built, then the logger is
    called, then the response is handed over. *)
Definition catch (options : ApiExceptionFilterOptions.t) (raised : Raised)
    : FilterOutcome :=
  match raised with
  | HttpWithNullResponse _ _ _ => ThrewTypeError
  | Classified exception =>
    let apiResponse := toApiResponse options exception in
    let logged :=
      match ApiExceptionFilterOptions.logger options with
      | Some logger => logger exception "ApiExceptionFilter"
      | None => Returned
      end in
    match logged with
    | Threw => LoggerThrew
    | Returned =>
        Responded
          (Sent.mk
             (orElseNum (statusCode apiResponse) HttpStatus.INTERNAL_SERVER_ERROR)
             apiResponse)
    end
  end.

End Catch.

End ApiExceptionFilter.

(** ** nestjs/interceptor.ts *)

(** An optional property of an options object that is spread over defaults:
    the key is missing, or present with a value that may be [undefined]. *)
Inductive OptionalKey (A : Type) : Type :=
  | KeyMissing
  | KeyGiven (v : option A).
Arguments KeyMissing {A}.
Arguments KeyGiven {A}.

(** [{ k: default, ...options }.k] *)
Definition spreadOver {A : Type} (default : A) (k : OptionalKey A) : option A :=
  match k with
  | KeyMissing => Some default
  | KeyGiven v => v
  end.

Module ApiResponseInterceptorOptions.
Record t : Type := mk {
  defaultMessage : OptionalKey string;
  skipIfWrapped : OptionalKey bool
}.
(** The default argument [{}]. *)
Definition empty : t := mk KeyMissing KeyMissing.
End ApiResponseInterceptorOptions.

(** What a route handler returned: an instance of [ApiResponse], or any
    other value ([None] is [undefined]). *)
Inductive HandlerValue (T : Type) : Type :=
  | IsApiResponse (r : ApiResponse T)
  | IsOther (v : option T).
Arguments IsApiResponse {T}.
Arguments IsOther {T}.

(** What the interceptor emits: the handler's own envelope, the
    [noContent()] envelope, an envelope around the handler's value, or (the
    advanced interceptor on a route marked to skip) the handler's value
    untouched. *)
Inductive Intercepted (T : Type) : Type :=
  | PassedThrough (r : ApiResponse T)
  | NoContent (r : ApiResponse JsNull)
  | Wrapped (r : ApiResponse (HandlerValue T))
  | Untouched (v : HandlerValue T).
Arguments PassedThrough {T}.
Arguments NoContent {T}.
Arguments Wrapped {T}.
Arguments Untouched {T}.

Module ApiResponseInterceptor.

(** The options as the constructor stores them:
    [{ defaultMessage: 'Success', skipIfWrapped: true, ...options }]. *)
Record State : Type := MkState {
  defaultMessage : option string;
  skipIfWrapped : option bool
}.

Definition new (options : ApiResponseInterceptorOptions.t) : State :=
  MkState
    (spreadOver "Success" (ApiResponseInterceptorOptions.defaultMessage options))
    (spreadOver true (ApiResponseInterceptorOptions.skipIfWrapped options)).

(** The function mapped over the handler's result; [statusCode] is
    [response.statusCode]. *)
Definition transform {T : Type} (this : State) (statusCode : Z)
    (data : HandlerValue T) : Intercepted T :=
  match skipIfWrapped this, data with
  | Some true, IsApiResponse r => PassedThrough r
  | _, _ =>
      if statusCode =? HttpStatus.NO_CONTENT then
        NoContent (ApiResponse.noContent None)
      else
        Wrapped
          (ApiResponse.success
             (SuccessParams.mk
                (match data with
                 | IsOther None => None
                 | _ => Some data
                 end)
                (defaultMessage this)
                (Some statusCode)
                None))
  end.

Definition intercept {T : Type} (this : State) (statusCode : Z)
    (data : HandlerValue T) : Intercepted T :=
  transform this statusCode data.

End ApiResponseInterceptor.

Module ApiResponseInterceptorAdvanced.

(** [skipTransform] is the metadata read under [SKIP_API_RESPONSE_KEY];
    [SkipApiResponse()] sets it to [true]. *)
Definition intercept {T : Type} (this : ApiResponseInterceptor.State)
    (skipTransform : option bool) (statusCode : Z) (data : HandlerValue T)
    : Intercepted T :=
  match skipTransform with
  | Some true => Untouched data
  | _ => ApiResponseInterceptor.transform this statusCode data
  end.

End ApiResponseInterceptorAdvanced.

(** ** nextjs/helpers.ts: the response helpers *)

(** How a call ends that the runtime may refuse. *)
Inductive Outcome (A : Type) : Type :=
  | Ok (a : A)
  | RangeError
  | TypeError.
Arguments Ok {A}.
Arguments RangeError {A}.
Arguments TypeError {A}.

Module NextResponseOptions.
Record t : Type := mk {
  headers : option (list (string * string));
  statusText : option string
}.
End NextResponseOptions.

(** A [Response]: its status line, the headers it was given and its body,
    the plain object that is written as JSON, or no body. *)
Module Response.
Record t (D : Type) : Type := mk {
  status : Z;
  statusText : option string;
  headers : option (list (string * string));
  body : option (PlainObject D)
}.
Arguments mk {D}.
Arguments status {D}.
Arguments statusText {D}.
Arguments headers {D}.
Arguments body {D}.

(** The statuses that admit no body. *)
Definition isNullBodyStatus (status : Z) : bool :=
  existsb (Z.eqb status) [101; 103; 204; 205; 304].

Definition inStatusRange (status : Z) : bool :=
  (200 <=? status) && (status <=? 599).

(** The conversion of an integer to the [unsigned short] that the [status]
    member of the init dictionary is declared as: modulo 2^16. *)
Definition toUnsignedShort (status : Z) : Z := status mod 65536.

Definition optionsHeaders (options : option NextResponseOptions.t)
    : option (list (string * string)) :=
  match options with
  | Some o => NextResponseOptions.headers o
  | None => None
  end.

Definition optionsStatusText (options : option NextResponseOptions.t)
    : option string :=
  match options with
  | Some o => NextResponseOptions.statusText o
  | None => None
  end.

End Response.

(** How an [async] call settles: with a value, or rejected with what was
    thrown. *)
Inductive Settled (A : Type) : Type :=
  | Resolved (a : A)
  | Rejected (error : CaughtValue).
Arguments Resolved {A}.
Arguments Rejected {A}.

(** What the wrapped handler gives: the handler's own response, or the
    response built from what it threw.  (The line that writes the error to
    the console is left out.) *)
Inductive Handled (D : Type) : Type :=
  | FromHandler (r : Response.t D)
  | FromCatch (r : Outcome (Response.t JsNull)).
Arguments FromHandler {D}.
Arguments FromCatch {D}.

Section NextHelpers.

(** Whether the status text and the headers of the options convert to the
    byte strings the init dictionary is declared with (a character above
    U+00FF does not). *)
Variable convertsInit : NextResponseOptions.t -> bool.

(** Whether [JSON.stringify] accepts a value given as [data] (it throws for
    a [BigInt], for a cycle, and when a [toJSON] of the value throws). *)
Variable serializes : forall D : Type, D -> bool.

(** Whether the runtime accepts the headers and the status text of the
    options (it throws a [TypeError] for a header name or value, or a status
    text, that is not well formed). *)
Variable acceptsInit : option NextResponseOptions.t -> bool.

(** Without options there is nothing to convert. *)
Definition convertible (options : option NextResponseOptions.t) : bool :=
  match options with
  | Some o => convertsInit o
  | None => true
  end.

(** The other fields of an envelope are strings, numbers and plain objects
    of primitive values, which [JSON.stringify] accepts. *)
Definition serializesBody {D : Type} (apiResponse : ApiResponse D) : bool :=
  match data apiResponse with
  | Some d => serializes D d
  | None => true
  end.

(** [Response.json(apiResponse, { status, ...options })].  The runtime
    converts the init dictionary first, the status to an [unsigned short],
    and throws a [TypeError] for a status text or a header that does not
    convert; it then writes the body, what [toJSON] gives, as JSON, and
    throws a [TypeError] for a value it cannot write; it then throws a
    [RangeError] for a status outside 200..599, and a [TypeError] for
    options it does not accept or for a body with a status that admits
    none. *)
Definition Response_json {D : Type} (apiResponse : ApiResponse D) (status : Z)
    (options : option NextResponseOptions.t) : Outcome (Response.t D) :=
  let status := Response.toUnsignedShort status in
  if negb (convertible options) then TypeError
  else if negb (serializesBody apiResponse) then TypeError
  else if negb (Response.inStatusRange status) then RangeError
  else if negb (acceptsInit options) then TypeError
  else if Response.isNullBodyStatus status then TypeError
  else Ok (Response.mk status (Response.optionsStatusText options)
             (Response.optionsHeaders options)
             (Some (ApiResponse.toJSON apiResponse))).



Definition jsonError (message : string) (statusCode : option Z)
    (businessCode : option Z) (details : option (gmap string JsPrim))
    (options : option NextResponseOptions.t) : Outcome (Response.t JsNull) :=
  let statusCode := statusCode ?? HttpStatus.INTERNAL_SERVER_ERROR in
  let businessCode := businessCode ?? BusinessCode.INTERNAL_ERROR in
  let apiResponse :=
    ApiResponse.error
      (ErrorParams.mk (Some message) (Some businessCode) details (Some statusCode)) in
  Response_json apiResponse statusCode options.




Definition jsonBadRequest (message : option string)
    (details : option (gmap string JsPrim))
    (options : option NextResponseOptions.t) : Outcome (Response.t JsNull) :=
  jsonError (message ?? "Bad request") (Some HttpStatus.BAD_REQUEST)
    (Some BusinessCode.INVALID_INPUT) details options.







Definition jsonInternalError (message : option string)
    (options : option NextResponseOptions.t) : Outcome (Response.t JsNull) :=
  jsonError (message ?? "Internal server error")
    (Some HttpStatus.INTERNAL_SERVER_ERROR)
    (Some BusinessCode.INTERNAL_ERROR) None options.

Definition withErrorHandler {D Ctx : Type}
    (handler : Request -> option Ctx -> Settled (Response.t D))
    (request : Request) (context : option Ctx) : Handled D :=
  match handler request context with
  | Resolved r => FromHandler r
  | Rejected (CaughtError message) => FromCatch (jsonInternalError (Some message) None)
  | Rejected _ => FromCatch (jsonInternalError (Some "An unexpected error occurred") None)
  end.

(** [parseBody(request)]; [parsed] is how [request.json()] settles. *)
Definition parseBody {T : Type} (parsed : Settled T)
    : T + Outcome (Response.t JsNull) :=
  match parsed with
  | Resolved data => inl data
  | Rejected _ => inr (jsonBadRequest (Some "Invalid JSON body") None None)
  end.

End NextHelpers.

(** ** Notions used to state the further properties *)

(** [r.error?.code] *)
Definition errorCode {D : Type} (r : ApiResponse D) : option Z :=
  match error r with
  | Some e => ErrorDetails.code e
  | None => None
  end.

(** [r.error?.stack] *)
Definition errorStack {D : Type} (r : ApiResponse D) : option string :=
  match error r with
  | Some e => ErrorDetails.stack e
  | None => None
  end.

(** The keys of a plain object, in order. *)
Definition keysOf {D : Type} (o : PlainObject D) : list string := map fst o.

(** An HTTP status and a business code that go together as in the filter's
    mapping. *)
Definition pairedAsInFilter (status code : Z) : Prop :=
  ApiExceptionFilter.mapHttpStatusToBusinessCode status = code.

Definition envelopePaired {D : Type} (r : ApiResponse D) : Prop :=
  exists status code,
    statusCode r = Some status /\ errorCode r = Some code
    /\ pairedAsInFilter status code.

Definition exceptionPaired (e : BusinessException.t) : Prop :=
  pairedAsInFilter (BusinessException.statusCode e)
    (BusinessException.businessCode e).

(** The call answered, under the given status line, with a body that is an
    envelope carrying the same status and, for a failure, the given
    business code. *)
Definition respondsWith {D : Type} (outcome : Outcome (Response.t D))
    (status : Z) (code : option Z) : Prop :=
  exists response,
    outcome = Ok response
    /\ Response.status response = status
    /\ exists body,
         Response.body response = Some body
         /\ getProp body "statusCode" = Some (FNum status)
         /\ match code with
            | Some c =>
                exists e, getProp body "error" = Some (FError e)
                          /\ ErrorDetails.code e = Some c
            | None => getProp body "error" = None
                      /\ getProp body "success" = Some (FBool true)
            end.

(** A string without the one sign [parseInt] accepts in front. *)
Definition withoutSign (s : string) : string :=
  match s with
  | String "-" rest => rest
  | String "+" rest => rest
  | _ => s
  end.

Definition startsWithDigit (s : string) : bool :=
  match s with
  | String c _ =>
    match digitValue c with
    | Some _ => true
    | None => false
    end
  | EmptyString => false
  end.

(** The string starts, after white space and an optional sign, with a
    decimal digit. *)
Definition looksNumeric (s : string) : bool :=
  startsWithDigit (withoutSign (trimStart s)).

(** * Properties *)

(** ** Range predicates *)

(** Decide every integer comparison in the goal, discarding the cases that
    contradict what is already known. *)
Ltac split_comparisons :=
  repeat match goal with
  | |- context [?a >=? ?b] => rewrite (Z.geb_leb a b)
  | |- context [?a <=? ?b] =>
      destruct (Z.leb_spec a b); try (exfalso; lia)
  | |- context [?a <? ?b] =>
      destruct (Z.ltb_spec a b); try (exfalso; lia)
  end.

(** C5: for every integer [c], the number of predicates of the family that
    hold of [c] is one when [c] lies in one of the eight documented ranges
    and zero otherwise; and each predicate is exactly the test of its own
    range, a function of the code alone. *)
Theorem range_predicates_exactly_one (c : Z) :
  countTrue c = (if inDocumentedRange c then 1%nat else 0%nat)
  /\ Forall2 (fun p r => p c = inRange c r) rangePredicates documentedRanges.
Proof.
  split.
  - unfold countTrue, inDocumentedRange, rangePredicates, documentedRanges,
      isSuccessCode, isAuthError, isUserError, isValidationError,
      isResourceError, isSystemError, isExternalError, isBusinessLogicError,
      inRange.
    cbn [existsb fst snd List.filter].
    split_comparisons; reflexivity.
  - unfold rangePredicates, documentedRanges.
    repeat constructor;
      unfold isSuccessCode, isAuthError, isUserError, isValidationError,
        isResourceError, isSystemError, isExternalError, isBusinessLogicError,
        inRange; cbn [fst snd]; now rewrite Z.geb_leb.
Qed.

(** ** The envelope *)

Lemma new_consistent_success {D : Type} d m s mt :
  @consistent D (ApiResponse.new (ApiResponseParams.mk true d m s mt None)).
Proof. split; cbn; [tauto | discriminate]. Qed.

Lemma new_consistent_failure {D : Type} m s mt e :
  @consistent D (ApiResponse.new (ApiResponseParams.mk false None m s mt (Some e))).
Proof. split; cbn; [split; discriminate | reflexivity]. Qed.

Lemma error_consistent p : consistent (ApiResponse.error p).
Proof. apply new_consistent_failure. Qed.

(** The six computed fields, read back from the object literal. *)
Lemma computedMeta_lookup page limit total :
  let m := ApiResponse.computedMeta page limit total in
  m !! "page" = Some (PNum (JInt page))
  /\ m !! "limit" = Some (PNum (JInt limit))
  /\ m !! "total" = Some (PNum (JInt total))
  /\ m !! "totalPages" = Some (PNum (js_ceil_div total limit))
  /\ m !! "hasNextPage" = Some (PBool (js_lt_int_num page (js_ceil_div total limit)))
  /\ m !! "hasPreviousPage" = Some (PBool (1 <? page)).
Proof.
  unfold ApiResponse.computedMeta.
  generalize (js_lt_int_num page (js_ceil_div total limit)).
  generalize (js_ceil_div total limit).
  generalize (1 <? page).
  intros b n b'. cbv zeta.
  repeat split; vm_compute; reflexivity.
Qed.

(** What a spread leaves under a key. *)
Lemma spread_lookup {V : Type} (base extra : gmap string V) k :
  spread base extra !! k =
  match extra !! k with
  | Some v => Some v
  | None => base !! k
  end.
Proof.
  unfold spread. rewrite lookup_union.
  destruct (extra !! k), (base !! k); reflexivity.
Qed.

Lemma paginated_meta {T : Type} (p : PaginatedParams.t T) :
  meta (ApiResponse.paginated p) =
  Some (spread (ApiResponse.computedMeta (PaginatedParams.page p)
                  (PaginatedParams.limit p) (PaginatedParams.total p))
               (PaginatedParams.meta p ?? ∅)).
Proof. reflexivity. Qed.

(** Rounding to nearest leaves an error of at most half a unit. *)
Lemma roundHalfEven_nearest n d :
  0 < d -> 2 * Z.abs (roundHalfEven n d * d - n) <= d.
Proof.
  intros Hd. unfold roundHalfEven.
  pose proof (Z.div_mod n d ltac:(lia)) as Hdm.
  pose proof (Z.mod_pos_bound n d Hd) as Hb.
  destruct (Z.ltb_spec (2 * (n mod d)) d);
    [|destruct (Z.ltb_spec d (2 * (n mod d))); [|destruct (Z.even (n / d))]];
    nia.
Qed.

(** The exponent chosen for a quotient of a number below 2^53 is not
    positive, and the scaled quotient is at least 2^52. *)
Lemma binade_lower a b :
  0 < a < 2 ^ 53 -> 0 < b ->
  binade a b <= 0 /\ 2 ^ 52 * scaleDen b (binade a b) <= scaleNum a (binade a b).
Proof.
  intros Ha Hb. unfold binade.
  pose proof (Z.log2_spec a ltac:(lia)) as Hla.
  pose proof (Z.log2_spec b ltac:(lia)) as Hlb.
  pose proof (Z.log2_nonneg a) as Hla0.
  pose proof (Z.log2_nonneg b) as Hlb0.
  assert (Z.log2 a < 53) as Hla53.
  { apply Z.log2_lt_pow2; lia. }
  set (la := Z.log2 a) in *. set (lb := Z.log2 b) in *.
  set (e := la - lb - 53).
  assert (e < 0) as He by lia.
  assert (scaleNum a e = a * 2 ^ (- e)) as HN.
  { unfold scaleNum. destruct (Z.leb_spec 0 e); [lia|reflexivity]. }
  assert (scaleDen b e = b) as HD.
  { unfold scaleDen. destruct (Z.leb_spec 0 e); [lia|reflexivity]. }
  assert (2 ^ (- e) * 2 ^ la = 2 ^ 53 * 2 ^ lb) as Hpow.
  { rewrite <- !Z.pow_add_r by lia. f_equal. lia. }
  assert (2 ^ (lb + 1) = 2 * 2 ^ lb) as Hlb1.
  { rewrite Z.pow_add_r by lia. lia. }
  assert (0 < 2 ^ lb) as Hplb by (apply Z.pow_pos_nonneg; lia).
  assert (0 < 2 ^ (- e)) as Hpe by (apply Z.pow_pos_nonneg; lia).
  rewrite HN, HD.
  destruct (Z.leb_spec (2 ^ 53) (a * 2 ^ (- e) / b)) as [Hbig|Hsmall].
  - split; [lia|].
    assert (2 ^ 53 * b <= a * 2 ^ (- e)) as Hge.
    { pose proof (Z.div_mod (a * 2 ^ (- e)) b ltac:(lia)).
      pose proof (Z.mod_pos_bound (a * 2 ^ (- e)) b Hb). nia. }
    assert (2 ^ (- e) = 2 * 2 ^ (- (e + 1))) as Hhalf.
    { replace (- e) with (1 + - (e + 1)) at 1 by lia.
      rewrite Z.pow_add_r by lia. reflexivity. }
    unfold scaleNum, scaleDen.
    destruct (Z.leb_spec 0 (e + 1)).
    + replace (e + 1) with 0 in * by lia. cbn [Z.opp] in Hhalf.
      rewrite Z.pow_0_r in *. lia.
    + lia.
  - split; [lia|]. nia.
Qed.

(** For a total below 2^53, rounding the quotient does not move it across an
    integer: [Math.ceil(total / limit)] is the ceiling of the exact quotient. *)
Lemma js_ceil_div_spec total limit :
  0 <= total < 2 ^ 53 -> 0 < limit ->
  exists n, js_ceil_div total limit = JInt n /\ isCeilOf total limit n.
Proof.
  intros Ht Hl. unfold js_ceil_div.
  destruct (Z.eqb_spec limit 0) as [->|_]; [lia|].
  destruct (Z.eqb_spec total 0) as [->|Hne].
  { exists 0. split; [reflexivity|]. unfold isCeilOf. lia. }
  unfold roundQuotient.
  rewrite (Z.abs_eq total), (Z.abs_eq limit) by lia.
  replace (Z.sgn total =? Z.sgn limit) with true
    by (symmetry; apply Z.eqb_eq; rewrite !Z.sgn_pos; lia).
  destruct (binade_lower total limit ltac:(lia) Hl) as [He Hlow].
  set (e := binade total limit) in *.
  pose proof (roundHalfEven_nearest (scaleNum total e) (scaleDen limit e)) as Hnear.
  set (m := roundHalfEven (scaleNum total e) (scaleDen limit e)) in *.
  eexists. split; [reflexivity|]. unfold isCeilOf.
  unfold scaleNum, scaleDen in *.
  destruct (Z.leb_spec 0 e) as [He0|He0].
  - replace e with 0 in * by lia. rewrite Z.pow_0_r in *.
    assert (limit = 1) as -> by nia.
    specialize (Hnear ltac:(lia)). lia.
  - specialize (Hnear Hl).
    assert (0 < 2 ^ (- e)) as Hpe by (apply Z.pow_pos_nonneg; lia).
    set (k := 2 ^ (- e)) in *.
    pose proof (Z.div_mod (- m) k ltac:(lia)) as Hdm.
    pose proof (Z.mod_pos_bound (- m) k Hpe) as Hmb.
    set (q := - m / k) in *. set (r := (- m) mod k) in *.
    assert (limit < 2 * k) as Hlk by nia.
    split.
    + destruct (Z.lt_ge_cases ((- q - 1) * limit) total) as [|Hc]; [assumption|].
      exfalso.
      assert (total * k <= (m - 1) * limit) by nia.
      lia.
    + destruct (Z.le_gt_cases total (- q * limit)) as [|Hc]; [assumption|].
      exfalso.
      assert (m * limit + k <= total * k) by nia.
      lia.
Qed.

Lemma isCeilOf_unique total limit n n' :
  0 < limit -> isCeilOf total limit n -> isCeilOf total limit n' -> n = n'.
Proof. unfold isCeilOf. intros Hl H H'. nia. Qed.

(** C2: every envelope that a factory operation returns satisfies the
    discriminant invariant: [success] is true exactly when [error] is absent,
    and a failed envelope has no [data]. *)
Theorem factories_consistent :
  (forall D (p : SuccessParams.t D), consistent (ApiResponse.success p))
  /\ (forall p, consistent (ApiResponse.error p))
  /\ (forall T (p : PaginatedParams.t T), consistent (ApiResponse.paginated p))
  /\ (forall D (d : D) m, consistent (ApiResponse.created d m))
  /\ (forall m, consistent (ApiResponse.noContent m))
  /\ (forall m d, consistent (ApiResponse.badRequest m d))
  /\ (forall m c, consistent (ApiResponse.unauthorized m c))
  /\ (forall m, consistent (ApiResponse.forbidden m))
  /\ (forall m c, consistent (ApiResponse.notFound m c))
  /\ (forall m c, consistent (ApiResponse.conflict m c))
  /\ (forall d m, consistent (ApiResponse.validationError d m))
  /\ (forall m, consistent (ApiResponse.tooManyRequests m))
  /\ (forall m, consistent (ApiResponse.internalError m)).
Proof.
  repeat match goal with |- _ /\ _ => split end; intros;
    first [ apply new_consistent_success | apply error_consistent ].
Qed.

(** C10: the constructor copies the six parameter fields as they are, and so
    it can build an envelope that breaks the invariant (here [success] is
    true and an [error] object is present): only the factories keep it. *)
Theorem constructor_copies_verbatim :
  (forall D (p : ApiResponseParams.t D),
      success (ApiResponse.new p) = ApiResponseParams.success p
      /\ data (ApiResponse.new p) = ApiResponseParams.data p
      /\ message (ApiResponse.new p) = ApiResponseParams.message p
      /\ statusCode (ApiResponse.new p) = ApiResponseParams.statusCode p
      /\ meta (ApiResponse.new p) = ApiResponseParams.meta p
      /\ error (ApiResponse.new p) = ApiResponseParams.error p)
  /\ ~ consistent
         (ApiResponse.new
            (ApiResponseParams.mk (D := JsNull) true None None None None
               (Some (ErrorDetails.mk (Some BusinessCode.INTERNAL_ERROR) None None)))).
Proof.
  split.
  - intros D p. repeat split.
  - intros [[H _] _]. cbn in H. specialize (H eq_refl). discriminate.
Qed.

(** Extra metadata that collides with a computed field replaces it: the
    caller's [totalPages: 99] is what the envelope carries, not the computed
    3. *)
Lemma computed_fields_do_not_win : ~ computedFieldsWin.
Proof.
  intros H.
  specialize (H nat
    (PaginatedParams.mk [] None None 1 10 25
       (Some {[ "totalPages" := PNum (JInt 99) ]}))
    "totalPages" _ (or_introl eq_refl) eq_refl).
  vm_compute in H. discriminate H.
Qed.

(** C1 (as the code has it): when [paginated] is given extra metadata, every
    key of the extra metadata, the derived ones included, keeps the caller's
    value in the resulting [meta]; the computed value is kept only under the
    keys the extra metadata does not have. *)
Theorem paginated_extra_meta_precedence {T : Type} (p : PaginatedParams.t T)
    (extra : PaginationMeta) :
  PaginatedParams.meta p = Some extra ->
  exists m,
    meta (ApiResponse.paginated p) = Some m
    /\ (forall k v, extra !! k = Some v -> m !! k = Some v)
    /\ (forall k, extra !! k = None ->
          m !! k = ApiResponse.computedMeta (PaginatedParams.page p)
                     (PaginatedParams.limit p) (PaginatedParams.total p) !! k).
Proof.
  intros Hextra. eexists. split; [apply paginated_meta|].
  rewrite Hextra. cbn [nullish].
  split; intros k; [intros v Hk | intros Hk]; rewrite spread_lookup, Hk; reflexivity.
Qed.

Lemma paginated_extra_meta_precedence_witness :
  exists m,
    meta (ApiResponse.paginated
            (PaginatedParams.mk [1%nat] None None 1 10 25
               (Some {[ "totalPages" := PNum (JInt 99) ]}))) = Some m
    /\ m !! "totalPages" = Some (PNum (JInt 99)).
Proof.
  destruct (paginated_extra_meta_precedence
              (PaginatedParams.mk [1%nat] None None 1 10 25
                 (Some {[ "totalPages" := PNum (JInt 99) ]}))
              {[ "totalPages" := PNum (JInt 99) ]} eq_refl) as (m & Hm & Hk & _).
  exists m. split; [exact Hm|]. apply Hk. vm_compute. reflexivity.
Defined.

(** C3: for [page >= 1], [limit >= 1] and [0 <= total < 2^53], the call
    [paginated(data, page, limit, total)] returns a [meta] whose [totalPages]
    is [ceil(total / limit)], whose [hasNextPage] is [page < totalPages] and
    whose [hasPreviousPage] is [page > 1]; the [meta] depends on
    [(page, limit, total)] alone; and [(1, 10, 25)] gives 3, true, false.
    The bound on [total] is needed: the quotient is rounded to a double
    before [Math.ceil] sees it. *)
Theorem paginated_derived_fields {T : Type} (items : list T)
    (msg : option string) (status : option Z) (page limit total : Z) :
  1 <= page -> 1 <= limit -> 0 <= total < 2 ^ 53 ->
  exists (m : PaginationMeta) (totalPages : Z),
    meta (ApiResponse.paginated
            (PaginatedParams.mk items msg status page limit total None)) = Some m
    /\ isCeilOf total limit totalPages
    /\ m !! "totalPages" = Some (PNum (JInt totalPages))
    /\ m !! "hasNextPage" = Some (PBool (page <? totalPages))
    /\ m !! "hasPreviousPage" = Some (PBool (1 <? page))
    /\ (forall (T' : Type) (items' : list T') msg' status',
          meta (ApiResponse.paginated
                  (PaginatedParams.mk items' msg' status' page limit total None))
          = Some m)
    /\ (page = 1 -> limit = 10 -> total = 25 ->
          totalPages = 3
          /\ m !! "hasNextPage" = Some (PBool true)
          /\ m !! "hasPreviousPage" = Some (PBool false)).
Proof.
  intros Hp Hl Ht.
  destruct (js_ceil_div_spec total limit Ht ltac:(lia)) as (n & Hn & Hceil).
  pose proof (computedMeta_lookup page limit total) as Hlk.
  cbv zeta in Hlk. destruct Hlk as (_ & _ & _ & Htp & Hnext & Hprev).
  rewrite Hn in Htp, Hnext. cbn [js_lt_int_num] in Hnext.
  exists (spread (ApiResponse.computedMeta page limit total) ∅), n.
  assert (Hsp : forall k, spread (ApiResponse.computedMeta page limit total) ∅ !! k
                          = ApiResponse.computedMeta page limit total !! k).
  { intros k. rewrite spread_lookup, lookup_empty. reflexivity. }
  rewrite !Hsp.
  repeat match goal with |- _ /\ _ => split end; try assumption; try reflexivity.
  intros -> -> ->.
  assert (n = 3) as -> by (unfold isCeilOf in Hceil; lia).
  repeat split; assumption.
Qed.

(** C3, as worded, fails on large totals: [2^54 / 3] is rounded down to the
    double [6004799503160661], which is its own ceiling, while
    [6004799503160661 * 3 < 2^54]. *)
Lemma totalPages_is_rounded_quotient : ~ totalPagesIsCeiling.
Proof.
  intros H.
  destruct (H nat [] 1 3 (2 ^ 54) ltac:(lia) ltac:(lia) ltac:(lia))
    as (m & n & Hm & Hceil & Htp).
  rewrite paginated_meta in Hm. injection Hm as <-.
  cbn [PaginatedParams.meta PaginatedParams.page PaginatedParams.limit
       PaginatedParams.total nullish] in Htp.
  rewrite spread_lookup, lookup_empty in Htp.
  pose proof (computedMeta_lookup 1 3 (2 ^ 54)) as Hlk. cbv zeta in Hlk.
  destruct Hlk as (_ & _ & _ & Hlk & _).
  rewrite Hlk in Htp.
  replace (js_ceil_div (2 ^ 54) 3) with (JInt 6004799503160661) in Htp
    by (vm_compute; reflexivity).
  injection Htp as <-.
  unfold isCeilOf in Hceil. lia.
Qed.

Lemma paginated_derived_fields_witness :
  exists (m : PaginationMeta),
    meta (ApiResponse.paginated
            (PaginatedParams.mk ["a"; "b"] None None 3 10 25 None)) = Some m
    /\ m !! "totalPages" = Some (PNum (JInt 3))
    /\ m !! "hasNextPage" = Some (PBool false)
    /\ m !! "hasPreviousPage" = Some (PBool true).
Proof.
  destruct (paginated_derived_fields ["a"; "b"] None None 3 10 25
              ltac:(lia) ltac:(lia) ltac:(lia))
    as (m & n & Hm & Hceil & Htp & Hnext & Hprev & _).
  assert (n = 3) as -> by (unfold isCeilOf in Hceil; lia).
  exists m. repeat split; assumption.
Defined.

(** ** Serialization *)

Lemma toJSON_props {D : Type} (r : ApiResponse D) :
  getProp (ApiResponse.toJSON r) "success" = Some (FBool (success r))
  /\ getProp (ApiResponse.toJSON r) "data" = FData <$> data r
  /\ getProp (ApiResponse.toJSON r) "message" = FStr <$> message r
  /\ getProp (ApiResponse.toJSON r) "statusCode" = FNum <$> statusCode r
  /\ getProp (ApiResponse.toJSON r) "meta" = FMeta <$> meta r
  /\ getProp (ApiResponse.toJSON r) "error" = FError <$> error r.
Proof.
  destruct r as [s [d|] [m|] [c|] [mt|] [e|]]; repeat split.
Qed.

Lemma toJSON_no_undefined {D : Type} (r : ApiResponse D) k :
  getProp (ApiResponse.toJSON r) k <> Some FUndefined.
Proof.
  destruct r as [s [d|] [m|] [c|] [mt|] [e|]]; cbn;
    repeat match goal with
    | |- context [if ?b then _ else _] => destruct b
    end; discriminate.
Qed.

(** C8: [toJSON] always emits [success]; each of [data], [message],
    [statusCode], [meta] and [error] is a key of the output exactly when the
    field is defined, with the field's value; no key holds [undefined];
    serializing what was serialized gives the same object; and
    [toJSON(success())] has no [data], [meta] or [error] key. *)
Theorem toJSON_omits_absent_fields {D : Type} (r : ApiResponse D) :
  getProp (ApiResponse.toJSON r) "success" = Some (FBool (success r))
  /\ getProp (ApiResponse.toJSON r) "data" = FData <$> data r
  /\ getProp (ApiResponse.toJSON r) "message" = FStr <$> message r
  /\ getProp (ApiResponse.toJSON r) "statusCode" = FNum <$> statusCode r
  /\ getProp (ApiResponse.toJSON r) "meta" = FMeta <$> meta r
  /\ getProp (ApiResponse.toJSON r) "error" = FError <$> error r
  /\ (forall k, getProp (ApiResponse.toJSON r) k <> Some FUndefined)
  /\ ApiResponse.toJSON (ApiResponse.new (asParams (ApiResponse.toJSON r)))
     = ApiResponse.toJSON r
  /\ ApiResponse.toJSON (ApiResponse.success (D := D) SuccessParams.empty)
     = [("success", FBool true); ("message", FStr "Success");
        ("statusCode", FNum 200)]
  /\ hasProp (ApiResponse.toJSON (ApiResponse.success (D := D) SuccessParams.empty))
       "data" = false
  /\ hasProp (ApiResponse.toJSON (ApiResponse.success (D := D) SuccessParams.empty))
       "meta" = false
  /\ hasProp (ApiResponse.toJSON (ApiResponse.success (D := D) SuccessParams.empty))
       "error" = false.
Proof.
  pose proof (toJSON_props r) as (Hs & Hd & Hm & Hc & Hmt & He).
  repeat match goal with |- _ /\ _ => split end; try assumption; try reflexivity.
  - apply toJSON_no_undefined.
  - destruct r as [s [d|] [m|] [c|] [mt|] [e|]]; reflexivity.
Qed.

(** ** The localization resolver *)

Import BusinessMessageProvider.

Lemma truthyStr_Some (m : option string) (s : string) :
  truthyStr m = Some s <-> m = Some s /\ s <> "".
Proof.
  unfold truthyStr. destruct m as [t|]; [|split; [discriminate | intros [? _]; discriminate]].
  destruct (String.eqb_spec t "") as [->|Hne]; split.
  - discriminate.
  - intros [[= <-] Hs]. contradiction.
  - intros [= <-]. split; [reflexivity | assumption].
  - intros [[= <-] _]. reflexivity.
Qed.

Lemma truthyStr_None (m : option string) :
  truthyStr m = None <-> m = None \/ m = Some "".
Proof.
  unfold truthyStr. destruct m as [t|]; [|split; [now left | reflexivity]].
  destruct (String.eqb_spec t "") as [->|Hne]; split.
  - now right.
  - reflexivity.
  - discriminate.
  - intros [H|[= H]]; [discriminate | contradiction].
Qed.

(** No built-in table holds an empty message. *)
Lemma messages_nonempty (table : list (Z * string)) (code : Z) :
  forallb (fun kv => negb (String.eqb (snd kv) "")) table = true ->
  (list_to_map table : MessageMap) !! code <> Some "".
Proof.
  intros Hall Hlk.
  apply elem_of_list_to_map_2, list_elem_of_In in Hlk.
  rewrite forallb_forall in Hall. specialize (Hall _ Hlk). discriminate Hall.
Qed.

Lemma builtInLookup_nonempty (l : Locale) (code : Z) :
  builtInLookup l code <> Some "".
Proof.
  unfold builtInLookup, builtInMessages.
  destruct (String.eqb l "en"); [|destruct (String.eqb l "vi")].
  - apply messages_nonempty. vm_compute. reflexivity.
  - apply messages_nonempty. vm_compute. reflexivity.
  - discriminate.
Qed.

Lemma customLookup_register_eq this l messages code :
  customLookup (registerMessages this l messages) l code =
  match messages !! code with
  | Some m => Some m
  | None => customLookup this l code
  end.
Proof.
  unfold customLookup, registerMessages; cbn [customMessages].
  rewrite lookup_insert_eq. unfold spread. rewrite lookup_union.
  destruct (customMessages this !! l) as [existing|]; cbn [nullish].
  - destruct (messages !! code), (existing !! code); reflexivity.
  - rewrite lookup_empty. destruct (messages !! code); reflexivity.
Qed.

Lemma customLookup_register_ne this l messages l' code :
  l' <> l ->
  customLookup (registerMessages this l messages) l' code = customLookup this l' code.
Proof.
  intros Hne. unfold customLookup, registerMessages; cbn [customMessages].
  rewrite lookup_insert_ne by congruence. reflexivity.
Qed.

Lemma firstHit_cons (step : option string) (rest : list (option string)) :
  firstHit (step :: rest)
  = match truthyStr step with
    | Some m => Some m
    | None => firstHit rest
    end.
Proof.
  destruct step as [m|]; [|reflexivity]. cbn [firstHit truthyStr].
  destruct (String.eqb m ""); reflexivity.
Qed.

Lemma getMessage_as_resolve (this : BusinessMessageProvider) (code : Z)
    (l : option Locale) :
  getMessage this code l = resolve this code l.
Proof.
  unfold getMessage, resolve, resolutionOrder, unknownSentinel.
  cbv zeta. set (target := l ?? locale this).
  cbn [app]. rewrite !firstHit_cons.
  change (tableEntry (customMessages this !! target) code)
    with (customLookup this target code).
  change (tableEntry (builtInMessages target) code)
    with (builtInLookup target code).
  destruct (truthyStr (customLookup this target code)); [reflexivity|].
  destruct (truthyStr (builtInLookup target code)); [reflexivity|].
  destruct (String.eqb_spec target (fallbackLocale this)) as [Heq|Hne]; cbn [negb].
  - rewrite bool_decide_eq_true_2 by congruence. cbn [firstHit nullish].
    destruct (DEFAULT_UNKNOWN_MESSAGE target); reflexivity.
  - rewrite bool_decide_eq_false_2 by congruence. rewrite !firstHit_cons.
    change (tableEntry (customMessages this !! fallbackLocale this) code)
      with (customLookup this (fallbackLocale this) code).
    change (tableEntry (builtInMessages (fallbackLocale this)) code)
      with (builtInLookup (fallbackLocale this) code).
    destruct (truthyStr (customLookup this (fallbackLocale this) code)); [reflexivity|].
    destruct (truthyStr (builtInLookup (fallbackLocale this) code)); [reflexivity|].
    cbn [firstHit nullish]. destruct (DEFAULT_UNKNOWN_MESSAGE target); reflexivity.
Qed.

Lemma unknownSentinel_other (other : Locale) :
  other <> "vi" -> unknownSentinel other = "Unknown error".
Proof.
  intros Hvi. unfold unknownSentinel, DEFAULT_UNKNOWN_MESSAGE.
  destruct (String.eqb_spec other "en"); [reflexivity|].
  destruct (String.eqb_spec other "vi"); [contradiction | reflexivity].
Qed.

Lemma builtInMessages_other (other : Locale) :
  other <> "en" -> other <> "vi" -> builtInMessages other = None.
Proof.
  intros Hen Hvi. unfold builtInMessages.
  destruct (String.eqb_spec other "en"); [contradiction|].
  destruct (String.eqb_spec other "vi"); [contradiction | reflexivity].
Qed.

(** On the locales that name no inherited member, the value returned at run
    time is the string of [getMessage]. *)
Lemma getMessageValue_typed (this : BusinessMessageProvider) (code : Z)
    (l : option Locale) :
  inheritedName (l ?? locale this) = false ->
  getMessageValue this code l = Message (getMessage this code l).
Proof.
  intros Hown. unfold getMessageValue, getMessage. cbv zeta.
  assert (Hunknown :
            DEFAULT_UNKNOWN_MESSAGE_at (l ?? locale this)
              ?? Message DEFAULT_UNKNOWN_MESSAGE_en
            = Message (DEFAULT_UNKNOWN_MESSAGE (l ?? locale this)
                         ?? DEFAULT_UNKNOWN_MESSAGE_en)).
  { unfold DEFAULT_UNKNOWN_MESSAGE_at. rewrite Hown.
    destruct (DEFAULT_UNKNOWN_MESSAGE (l ?? locale this)); reflexivity. }
  rewrite Hunknown.
  destruct (truthyStr (customLookup this (l ?? locale this) code));
    [reflexivity|].
  destruct (truthyStr (builtInLookup (l ?? locale this) code)); [reflexivity|].
  destruct (negb ((l ?? locale this) =? fallbackLocale this)%string);
    [|reflexivity].
  destruct (truthyStr (customLookup this (fallbackLocale this) code));
    [reflexivity|].
  destruct (truthyStr (builtInLookup (fallbackLocale this) code)); reflexivity.
Qed.

(** C4, as worded, fails for a locale that names a member of
    [Object.prototype]: for the locale ['constructor'] and a code without a
    message, the last step returns the inherited member, not a sentinel. *)
Lemma resolution_returns_inherited_member : ~ resolutionCoversEveryLocale.
Proof.
  intros H.
  specialize (H (MkProvider "en" "en" ∅) 9999 (Some "constructor")).
  vm_compute in H. discriminate H.
Qed.

(** C4: for a requested locale that is not the name of a member of
    [Object.prototype], [getMessage] returns the first hit, in order, of the
    requested locale's override table, its built-in table and, only when the
    fallback locale differs from the requested one, the fallback's override
    table and built-in table (a table hits when it holds, for the code, a
    message that is not empty); without a hit it returns the requested
    locale's unknown sentinel, the one of ['en'] for a locale that has none.
    The built-in tables are those of ['en'] and ['vi'], and no other locale
    has one.  With default locale ['vi'], fallback ['en'] and no override for
    2001 in ['vi'], the ['vi'] built-in text is returned; a locale without
    a built-in table gets the ['en'] text through the fallback; a code in
    no table gets the ['vi'] sentinel. *)
Theorem getMessage_resolution_order (this : BusinessMessageProvider) (code : Z)
    (l : option string) :
  inheritedName (l ?? locale this) = false ->
  getMessageValue this code l
  = Message (firstHit (resolutionOrder this (l ?? locale this) code)
               ?? unknownSentinel (l ?? locale this))
  /\ unknownSentinel "vi" = "Lỗi không xác định"
  /\ unknownSentinel "en" = "Unknown error"
  /\ (forall other, other <> "vi" -> unknownSentinel other = "Unknown error")
  /\ builtInMessages "en" = Some enMessages
  /\ builtInMessages "vi" = Some viMessages
  /\ (forall other, other <> "en" -> other <> "vi" ->
        builtInMessages other = None)
  /\ (forall custom,
        tableEntry (custom !! "vi") 2001 = None ->
        getMessageValue (MkProvider "vi" "en" custom) 2001 None
        = Message "Không tìm thấy người dùng")
  /\ getMessageValue (MkProvider "fr" "en" ∅) 2001 None
     = Message "User not found"
  /\ getMessageValue (MkProvider "vi" "en" ∅) 9999 None
     = Message "Lỗi không xác định".
Proof.
  intros Hown.
  repeat match goal with |- _ /\ _ => split end; try reflexivity.
  - rewrite (getMessageValue_typed this code l Hown). f_equal.
    apply getMessage_as_resolve.
  - apply unknownSentinel_other.
  - apply builtInMessages_other.
  - intros custom Hnone. unfold getMessageValue, customLookup.
    cbn [nullish locale customMessages].
    change (match custom !! "vi" with
            | Some messages => messages !! 2001
            | None => None
            end) with (tableEntry (custom !! "vi") 2001).
    rewrite Hnone. reflexivity.
Qed.

Lemma getMessage_resolution_order_witness :
  getMessageValue (MkProvider "vi" "en" {[ "en" := {[ 9999 := "Custom" ]} ]})
    9999 (Some "fr")
  = Message "Custom".
Proof.
  destruct (getMessage_resolution_order
              (MkProvider "vi" "en" {[ "en" := {[ 9999 := "Custom" ]} ]})
              9999 (Some "fr") eq_refl) as [-> _].
  vm_compute. reflexivity.
Defined.

(** The five steps one by one: each returns when the steps before it
    missed and its own table hits. *)
Lemma getMessage_steps (this : BusinessMessageProvider) (code : Z)
    (l : option Locale) (m : string) :
  let target := l ?? locale this in
  let fallback := fallbackLocale this in
  (truthyStr (customLookup this target code) = Some m ->
   getMessage this code l = m)
  /\ (truthyStr (customLookup this target code) = None ->
      truthyStr (builtInLookup target code) = Some m ->
      getMessage this code l = m)
  /\ (truthyStr (customLookup this target code) = None ->
      truthyStr (builtInLookup target code) = None ->
      target <> fallback ->
      truthyStr (customLookup this fallback code) = Some m ->
      getMessage this code l = m)
  /\ (truthyStr (customLookup this target code) = None ->
      truthyStr (builtInLookup target code) = None ->
      target <> fallback ->
      truthyStr (customLookup this fallback code) = None ->
      truthyStr (builtInLookup fallback code) = Some m ->
      getMessage this code l = m)
  /\ (truthyStr (customLookup this target code) = None ->
      truthyStr (builtInLookup target code) = None ->
      (target = fallback
       \/ (truthyStr (customLookup this fallback code) = None
           /\ truthyStr (builtInLookup fallback code) = None)) ->
      getMessage this code l = unknownSentinel target).
Proof.
  cbv zeta. unfold getMessage, unknownSentinel. cbv zeta.
  repeat match goal with |- _ /\ _ => split end.
  - intros ->. reflexivity.
  - intros -> ->. reflexivity.
  - intros -> -> Hne ->.
    destruct (String.eqb_spec (l ?? locale this) (fallbackLocale this));
      [contradiction | reflexivity].
  - intros -> -> Hne -> ->.
    destruct (String.eqb_spec (l ?? locale this) (fallbackLocale this));
      [contradiction | reflexivity].
  - intros -> -> Hcase.
    destruct (String.eqb_spec (l ?? locale this) (fallbackLocale this)) as [Heq|Hne];
      cbn [negb].
    + destruct (DEFAULT_UNKNOWN_MESSAGE (l ?? locale this)); reflexivity.
    + destruct Hcase as [Heq|[-> ->]]; [contradiction|].
      destruct (DEFAULT_UNKNOWN_MESSAGE (l ?? locale this)); reflexivity.
Qed.

(** The scenario of the resolver's fallback: default locale ['vi'], fallback
    ['en'], no override for the code in ['vi']. *)
Lemma getMessage_vi_builtin_first (custom : gmap Locale MessageMap) :
  customLookup (MkProvider "vi" "en" custom) "vi" 2001 = None ->
  getMessage (MkProvider "vi" "en" custom) 2001 None = "Không tìm thấy người dùng".
Proof.
  intros Hnone. unfold getMessage. cbn [nullish locale]. rewrite Hnone.
  reflexivity.
Qed.

Lemma getMessage_unknown_code_sentinel :
  getMessage (MkProvider "vi" "en" ∅) 9999 None = "Lỗi không xác định"
  /\ getMessage (MkProvider "vi" "en" ∅) 9999 (Some "fr") = "Unknown error".
Proof. split; vm_compute; reflexivity. Qed.


Lemma getMessage_skips_empty_override :
  hasMessage (MkProvider "en" "en" {[ "en" := {[ 9999 := "" ]} ]}) 9999 None = true
  /\ getMessage (MkProvider "en" "en" {[ "en" := {[ 9999 := "" ]} ]}) 9999 None
     = "Unknown error".
Proof. split; vm_compute; reflexivity. Qed.



(** With ['vi'] as the fallback locale, a registration for ['vi'] changes
    what a code without an English message resolves to in ['en']. *)
Lemma registration_reaches_through_fallback : ~ registrationFramesOtherLocales.
Proof.
  intros H.
  specialize (H (MkProvider "en" "vi" ∅) "vi" {[ 9999 := "X" ]} "en" 9999
                ltac:(discriminate)).
  vm_compute in H. discriminate H.
Qed.

(** C9 (as the code has it): [registerMessages(l, messages)] merges into the
    override table of [l], the new entry winning per code and the other
    entries staying; it leaves the override table of every other locale as it
    was; a registered message that is not empty is what [l] then resolves to;
    and when [l] is not the fallback locale, resolution in every other locale
    is unchanged.  So with fallback ['en'], after registering [{2001: "X"}]
    for ['vi'], 2001 resolves to ["X"] in ['vi'] and as before in ['en']. *)
Theorem registerMessages_merges_and_frames (this : BusinessMessageProvider)
    (l : Locale) (messages : MessageMap) :
  (forall code,
      customLookup (registerMessages this l messages) l code =
      match messages !! code with
      | Some m => Some m
      | None => customLookup this l code
      end)
  /\ (forall l' code, l' <> l ->
        customLookup (registerMessages this l messages) l' code
        = customLookup this l' code)
  /\ (forall code m, messages !! code = Some m -> m <> "" ->
        getMessage (registerMessages this l messages) code (Some l) = m)
  /\ (l <> fallbackLocale this ->
      forall l' code, l' <> l ->
        getMessage (registerMessages this l messages) code (Some l')
        = getMessage this code (Some l'))
  /\ (l = "vi" -> fallbackLocale this = "en" -> messages = {[ 2001 := "X" ]} ->
      getMessage (registerMessages this l messages) 2001 (Some "vi") = "X"
      /\ getMessage (registerMessages this l messages) 2001 (Some "en")
         = getMessage this 2001 (Some "en")).
Proof.
  assert (Hhit : forall code m, messages !! code = Some m -> m <> "" ->
            getMessage (registerMessages this l messages) code (Some l) = m).
  { intros code m Hm Hne. unfold getMessage. cbn [nullish].
    rewrite customLookup_register_eq, Hm.
    assert (truthyStr (Some m) = Some m) as -> by (apply truthyStr_Some; auto).
    reflexivity. }
  assert (Hframe : l <> fallbackLocale this ->
            forall l' code, l' <> l ->
              getMessage (registerMessages this l messages) code (Some l')
              = getMessage this code (Some l')).
  { intros Hfb l' code Hne. unfold getMessage. cbn [nullish].
    rewrite customLookup_register_ne by assumption.
    change (fallbackLocale (registerMessages this l messages))
      with (fallbackLocale this).
    rewrite (customLookup_register_ne this l messages (fallbackLocale this))
      by congruence.
    reflexivity. }
  repeat match goal with |- _ /\ _ => split end.
  - apply customLookup_register_eq.
  - intros l' code Hne. apply customLookup_register_ne. assumption.
  - exact Hhit.
  - exact Hframe.
  - intros -> Hfb ->. split.
    + apply (Hhit 2001 "X"); [reflexivity | discriminate].
    + apply Hframe; [rewrite Hfb|]; discriminate.
Qed.

Lemma registerMessages_merges_and_frames_witness :
  getMessage (registerMessages (MkProvider "en" "en" ∅) "vi" {[ 2001 := "X" ]})
    2001 (Some "vi") = "X"
  /\ getMessage (registerMessages (MkProvider "en" "en" ∅) "vi" {[ 2001 := "X" ]})
       2001 (Some "en")
     = getMessage (MkProvider "en" "en" ∅) 2001 (Some "en").
Proof.
  apply (proj2 (proj2 (proj2 (proj2
           (registerMessages_merges_and_frames
              (MkProvider "en" "en" ∅) "vi" {[ 2001 := "X" ]})))));
    reflexivity.
Defined.

(** ** Pagination parameters *)

(** Reading back the digits that [String(n)] printed. *)
Lemma parseDigits_string_of_uint (d : Decimal.uint) (acc : Z) :
  parseDigits (NilEmpty.string_of_uint d) (Some acc) = Some (uintValue d acc).
Proof.
  revert acc. induction d; intros acc; cbn [NilEmpty.string_of_uint uintValue];
    [reflexivity | ..]; apply IHd.
Qed.

Lemma uintValue_of_uint_acc (d : Decimal.uint) (p : positive) :
  Z.pos (Pos.of_uint_acc d p) = uintValue d (Z.pos p).
Proof.
  revert p. induction d; intros p; cbn [Pos.of_uint_acc uintValue];
    [reflexivity | ..]; rewrite IHd; f_equal; lia.
Qed.

Lemma uintValue_of_uint (d : Decimal.uint) :
  Z.of_N (Pos.of_uint d) = uintValue d 0.
Proof.
  induction d; cbn [Pos.of_uint uintValue]; [reflexivity | exact IHd | ..];
    cbn [Z.of_N]; rewrite uintValue_of_uint_acc; reflexivity.
Qed.

Lemma parseDigits_digit (c : ascii) (rest : string) (acc : option Z) (d : Z) :
  digitValue c = Some d ->
  parseDigits (String c rest) acc = parseDigits rest (Some (10 * (acc ?? 0) + d)).
Proof. intros Hd. cbn [parseDigits]. rewrite Hd. reflexivity. Qed.

Lemma parseDigits_to_uint (p : positive) :
  parseDigits (NilEmpty.string_of_uint (Pos.to_uint p)) None = Some (Z.pos p).
Proof.
  pose proof (DecimalPos.Unsigned.of_to p) as Hof.
  apply (f_equal Z.of_N) in Hof. rewrite uintValue_of_uint in Hof. cbn in Hof.
  pose proof (DecimalPos.Unsigned.to_uint_nonnil p) as Hnn.
  destruct (Pos.to_uint p) as [|d|d|d|d|d|d|d|d|d|d]; [contradiction | ..];
    cbn [NilEmpty.string_of_uint]; cbn [uintValue] in Hof;
    erewrite parseDigits_digit by reflexivity;
    rewrite parseDigits_string_of_uint; cbn [nullish];
    exact (f_equal Some Hof).
Qed.

(** A double holds every integer below 2^53 exactly. *)
Lemma roundHalfEven_one (n : Z) : roundHalfEven n 1 = n.
Proof.
  unfold roundHalfEven. rewrite Z.mod_1_r, Z.div_1_r. reflexivity.
Qed.

Lemma js_number_of_Z_safe (z : Z) :
  Z.abs z < 2 ^ 53 -> js_number_of_Z z = JInt z.
Proof.
  intros Hz. unfold js_number_of_Z.
  destruct (Z.eqb_spec z 0) as [->|Hne]; [reflexivity|].
  unfold roundQuotient.
  destruct (binade_lower (Z.abs z) 1 ltac:(lia) ltac:(lia)) as [He _].
  set (e := binade (Z.abs z) 1) in *.
  assert (Hv : (if 0 <=? e
                then roundHalfEven (scaleNum (Z.abs z) e) (scaleDen 1 e) * 2 ^ e
                else roundHalfEven (scaleNum (Z.abs z) e) (scaleDen 1 e)
                     / 2 ^ (- e)) = Z.abs z).
  { unfold scaleNum, scaleDen. destruct (Z.leb_spec 0 e).
    - replace e with 0 by lia. rewrite Z.pow_0_r, roundHalfEven_one. lia.
    - rewrite roundHalfEven_one. apply Z.div_mul.
      apply Z.pow_nonzero; lia. }
  rewrite Hv.
  destruct (Z.leb_spec (2 ^ 1024) (Z.abs z)) as [Hbig|_].
  - exfalso. assert (2 ^ 53 <= 2 ^ 1024) by (apply Z.pow_le_mono_r; lia). lia.
  - f_equal. lia.
Qed.

Lemma js_number_of_Z_not_NaN (z : Z) : js_number_of_Z z <> JNaN.
Proof.
  unfold js_number_of_Z. destruct (z =? 0); [discriminate|].
  destruct (roundQuotient (Z.abs z) 1) as [m e].
  destruct (2 ^ 1024 <=? _); [destruct (0 <? z)|]; discriminate.
Qed.

(** White space of more than one byte starts with a lead byte. *)
Lemma isWhiteSpace2_lead (c1 c2 : ascii) :
  isWhiteSpace2 c1 c2 = true -> isLead c1 = true.
Proof.
  unfold isWhiteSpace2, isLead. destruct (byteOf c1 =? 194); [reflexivity|].
  discriminate.
Qed.

Lemma isWhiteSpace3_lead (c1 c2 c3 : ascii) :
  isWhiteSpace3 c1 c2 c3 = true -> isLead c1 = true.
Proof.
  unfold isWhiteSpace3, isLead.
  destruct (byteOf c1 =? 194), (byteOf c1 =? 225), (byteOf c1 =? 226),
    (byteOf c1 =? 227), (byteOf c1 =? 239); try reflexivity.
  cbn [andb orb]. discriminate.
Qed.

(** Nothing is trimmed from a string that starts with a byte that is neither
    white space nor such a lead byte. *)
Lemma trimStart_plain (c : ascii) (rest : string) :
  isWhiteSpace c = false -> isLead c = false ->
  trimStart (String c rest) = String c rest.
Proof.
  intros Hws Hlead. cbn [trimStart]. rewrite Hws.
  destruct rest as [|c2 [|c3 rest]]; [reflexivity | ..].
  - destruct (isWhiteSpace2 c c2) eqn:H2; [|reflexivity].
    apply isWhiteSpace2_lead in H2. congruence.
  - destruct (isWhiteSpace2 c c2) eqn:H2;
      [apply isWhiteSpace2_lead in H2; congruence|].
    destruct (isWhiteSpace3 c c2 c3) eqn:H3; [|reflexivity].
    apply isWhiteSpace3_lead in H3. congruence.
Qed.

Lemma sign_or_digit_plain (u : string) :
  startsWithDigit (withoutSign u) = true ->
  exists c rest, u = String c rest /\ isWhiteSpace c = false /\ isLead c = false.
Proof.
  destruct u as [|c rest]; [discriminate|]. intros H.
  exists c, rest. split; [reflexivity|]. revert H.
  destruct c as [[] [] [] [] [] [] [] []];
    try (intros _; split; reflexivity);
    cbn [withoutSign startsWithDigit]; intros H'; exfalso;
    destruct rest as [|c' rest']; discriminate H'.
Qed.

Lemma parseInt_body (s : string) :
  parseInt s =
  match parseDigits (withoutSign (trimStart s)) None with
  | Some n =>
      js_number_of_Z
        ((match trimStart s with String "-" _ => -1 | _ => 1 end) * n)
  | None => JNaN
  end.
Proof.
  unfold parseInt, withoutSign.
  destruct (trimStart s) as [|c rest]; [reflexivity|].
  destruct c as [[] [] [] [] [] [] [] []]; reflexivity.
Qed.

Lemma string_of_uint_head (d : Decimal.uint) :
  d <> Decimal.Nil ->
  exists c rest k,
    NilEmpty.string_of_uint d = String c rest /\ digitValue c = Some k.
Proof.
  destruct d; [contradiction | ..]; intros _; cbn [NilEmpty.string_of_uint];
    do 3 eexists; (split; [reflexivity | reflexivity]).
Qed.

Lemma string_of_uint_nonnil (d : Decimal.uint) :
  d <> Decimal.Nil -> NilZero.string_of_uint d = NilEmpty.string_of_uint d.
Proof. destruct d; [contradiction | ..]; reflexivity. Qed.

Lemma digit_unsigned (c : ascii) (rest : string) (k : Z) :
  digitValue c = Some k ->
  startsWithDigit (withoutSign (String c rest)) = true
  /\ withoutSign (String c rest) = String c rest
  /\ (match String c rest with String "-" _ => -1 | _ => 1 end) = 1.
Proof.
  destruct c as [[] [] [] [] [] [] [] []]; try discriminate; intros _;
    repeat split; reflexivity.
Qed.

Lemma isSafeInteger_abs (n : Z) : isSafeInteger n = true -> Z.abs n < 2 ^ 53.
Proof. unfold isSafeInteger. intros H. apply Z.leb_le in H. lia. Qed.

(** [parseInt(String(n), 10)] is [n] again, for a safe integer [n]. *)
Lemma parseInt_String_of_number (longForm : Z -> string) (n : Z) :
  isSafeInteger n = true ->
  parseInt (String_of_number longForm n) = JInt n.
Proof.
  intros Hsafe. unfold String_of_number. rewrite Hsafe.
  pose proof (js_number_of_Z_safe n (isSafeInteger_abs n Hsafe)) as Hnum.
  destruct n as [|p|p]; [reflexivity | ..];
    pose proof (DecimalPos.Unsigned.to_uint_nonnil p) as Hnn;
    pose proof (parseDigits_to_uint p) as Hdigits;
    destruct (string_of_uint_head _ Hnn) as (c & rest & k & Hs & Hc);
    cbn [Z.to_int NilZero.string_of_int];
    rewrite string_of_uint_nonnil by assumption;
    rewrite parseInt_body.
  - rewrite Hs in *.
    destruct (digit_unsigned c rest k Hc) as (Hd & Hw & Hsign).
    destruct (sign_or_digit_plain _ Hd) as (c0 & rest0 & [= <- <-] & Hws & Hlead).
    rewrite (trimStart_plain c rest Hws Hlead), Hw, Hsign, Hdigits.
    rewrite Z.mul_1_l. exact Hnum.
  - rewrite (trimStart_plain "-" _ eq_refl eq_refl).
    cbn [withoutSign]. rewrite Hdigits. exact Hnum.
Qed.

Lemma parsePagination_unfold longForm request options :
  parsePagination longForm request options =
  Pagination.mk
    (js_max_int 1 (parseInt (pageSource longForm request options)))
    (js_min_int (maxLimitOf options)
       (js_max_int 1 (parseInt (limitSource longForm request options)))).
Proof. reflexivity. Qed.

(** C6: the parser does not correct a value that is not numeric: for
    [page=abc&limit=10] it returns [NaN] as the page, and for
    [page=2&limit=ten] it returns [NaN] as the limit, since [parseInt] gives
    [NaN] there and [Math.max] and [Math.min] pass it on; neither is a page
    of at least 1 or a limit between 1 and [maxLimit].  Values that are
    numeric are clamped as the claim says: [page=-5&limit=10] gives
    [{page: 1, limit: 10}] and [page=1&limit=500] gives
    [{page: 1, limit: 100}] under the default options. *)
Theorem pagination_non_numeric_is_NaN (longForm : Z -> string) :
  parsePagination longForm (MkRequest [("page", "abc"); ("limit", "10")]) None
  = Pagination.mk JNaN (JInt 10)
  /\ parsePagination longForm (MkRequest [("page", "2"); ("limit", "ten")]) None
     = Pagination.mk (JInt 2) JNaN
  /\ parsePagination longForm (MkRequest [("page", "-5"); ("limit", "10")]) None
     = Pagination.mk (JInt 1) (JInt 10)
  /\ parsePagination longForm (MkRequest [("page", "1"); ("limit", "500")]) None
     = Pagination.mk (JInt 1) (JInt 100).
Proof. repeat split; vm_compute; reflexivity. Qed.

(** * Further properties *)

(** ** The tables of constants *)

(** A table read with [table[k] || sentinel] answers something else than the
    sentinel exactly on its keys, provided no entry is empty or the sentinel
    itself. *)
Lemma table_get_known (l : list (Z * string)) (sentinel : string) (k : Z) :
  forallb (fun kv => negb (String.eqb (snd kv) "")
                     && negb (String.eqb (snd kv) sentinel)) l = true ->
  (orElse ((list_to_map l : gmap Z string) !! k) sentinel <> sentinel
   <-> In k (map fst l)).
Proof.
  intros Hall. rewrite forallb_forall in Hall.
  destruct ((list_to_map l : gmap Z string) !! k) as [v|] eqn:Hlk.
  - pose proof Hlk as Hin. apply elem_of_list_to_map_2, list_elem_of_In in Hin.
    specialize (Hall _ Hin). cbn [snd] in Hall.
    apply andb_true_iff in Hall as [Hne Hns].
    apply negb_true_iff in Hne, Hns.
    unfold orElse, truthyStr. rewrite Hne.
    apply String.eqb_neq in Hns. split; [intros _ | intros _; exact Hns].
    change k with (fst (k, v)). apply in_map. exact Hin.
  - apply not_elem_of_list_to_map in Hlk.
    unfold orElse, truthyStr. split; [congruence|].
    intros Hin. exfalso. apply Hlk. apply list_elem_of_In. exact Hin.
Qed.

(** X1: a status code satisfies at most one of [isSuccessStatus],
    [isRedirect], [isClientError] and [isServerError], and exactly one when
    it lies in [[200, 600)]; an informational 1xx status, like any status
    outside that interval, satisfies none. *)
Theorem http_status_classes_partition (statusCode : Z) :
  length (List.filter (fun p => p statusCode)
            [isSuccessStatus; isRedirect; isClientError; isServerError])
  = (if (200 <=? statusCode) && (statusCode <? 600) then 1%nat else 0%nat).
Proof.
  unfold isSuccessStatus, isRedirect, isClientError, isServerError.
  cbn [List.filter].
  split_comparisons; reflexivity.
Qed.

(** X2: [getHttpStatusMessage] answers something else than
    ['Unknown Status'] exactly for the values of the [HttpStatus] constants:
    every constant has a description, and no other number has one. *)
Theorem getHttpStatusMessage_known_iff_constant (statusCode : Z) :
  getHttpStatusMessage statusCode <> "Unknown Status"
  <-> In statusCode (valuesOf HttpStatus_entries).
Proof.
  unfold getHttpStatusMessage, httpStatusMessages.
  rewrite table_get_known by (vm_compute; reflexivity).
  match goal with
  | |- In _ ?l <-> In _ ?l' =>
      assert (Heq : l = l') by (vm_compute; reflexivity); rewrite Heq
  end.
  reflexivity.
Qed.

(** X3: [getBusinessCodeMessage] answers something else than
    ['Unknown error'] exactly for the values of the [BusinessCode]
    constants, and each of these values lies in exactly one of the eight
    documented ranges. *)
Theorem business_constants_described_and_classified (code : Z) :
  (getBusinessCodeMessage code <> "Unknown error"
   <-> In code (valuesOf BusinessCode_entries))
  /\ (In code (valuesOf BusinessCode_entries) -> countTrue code = 1%nat).
Proof.
  split.
  - unfold getBusinessCodeMessage, businessCodeMessages.
    rewrite table_get_known by (vm_compute; reflexivity).
    match goal with
    | |- In _ ?l <-> In _ ?l' =>
        assert (Heq : l = l') by (vm_compute; reflexivity); rewrite Heq
    end.
    reflexivity.
  - intros Hin.
    assert (Hall : forallb (fun c => Nat.eqb (countTrue c) 1)
                     (valuesOf BusinessCode_entries) = true)
      by (vm_compute; reflexivity).
    rewrite forallb_forall in Hall. apply Nat.eqb_eq, Hall, Hin.
Qed.

(** ** The resolver, beyond the claims *)

Lemma businessCodeMessages_is_enMessages : businessCodeMessages = enMessages.
Proof. vm_compute. reflexivity. Qed.

Lemma businessCodeMessages_keys (code : Z) :
  businessCodeMessages !! code <> None
  <-> In code (valuesOf BusinessCode_entries).
Proof.
  unfold businessCodeMessages.
  rewrite <- not_elem_of_list_to_map, list_elem_of_In.
  match goal with
  | |- ~ ~ In _ ?l <-> In _ ?l' =>
      assert (Heq : l = l') by (vm_compute; reflexivity); rewrite Heq
  end.
  split; [|tauto].
  intros Hnn. destruct (in_dec Z.eq_dec code (valuesOf BusinessCode_entries));
    [assumption | contradiction].
Qed.

Lemma builtin_tables_same_codes : dom viMessages = dom enMessages.
Proof. vm_compute. reflexivity. Qed.

Lemma viMessages_None_iff (code : Z) :
  viMessages !! code = None <-> enMessages !! code = None.
Proof.
  rewrite <- !not_elem_of_dom, builtin_tables_same_codes. reflexivity.
Qed.

Lemma builtInLookup_None_en (l : Locale) (code : Z) :
  enMessages !! code = None -> builtInLookup l code = None.
Proof.
  intros Hen. unfold builtInLookup, builtInMessages.
  destruct (String.eqb l "en"); [exact Hen|].
  destruct (String.eqb l "vi"); [apply viMessages_None_iff, Hen | reflexivity].
Qed.

Lemma truthyStr_builtIn (l : Locale) (code : Z) :
  truthyStr (builtInLookup l code) = builtInLookup l code.
Proof.
  pose proof (builtInLookup_nonempty l code) as Hne.
  destruct (builtInLookup l code) as [s|]; [|reflexivity].
  cbn. destruct (String.eqb_spec s "") as [->|_]; [congruence | reflexivity].
Qed.

Lemma customLookup_empty (l fallback target : Locale) (code : Z) :
  customLookup (MkProvider l fallback ∅) target code = None.
Proof. unfold customLookup. cbn. rewrite lookup_empty. reflexivity. Qed.

(** What a provider without overrides resolves a code to in a locale whose
    built-in table is [table]. *)
Lemma getMessage_no_overrides (l fallback target : Locale) (code : Z)
    (table : MessageMap) :
  builtInMessages target = Some table ->
  getMessage (MkProvider l fallback ∅) code (Some target)
  = match table !! code with
    | Some s => s
    | None => unknownSentinel target
    end.
Proof.
  intros Htable.
  assert (Hb : builtInLookup target code = table !! code)
    by (unfold builtInLookup; rewrite Htable; reflexivity).
  assert (Hen : table !! code = None -> enMessages !! code = None).
  { unfold builtInMessages in Htable.
    destruct (String.eqb target "en"); [injection Htable as <-; auto|].
    destruct (String.eqb target "vi"); [|discriminate].
    injection Htable as <-. apply viMessages_None_iff. }
  unfold getMessage, unknownSentinel. cbn [nullish fallbackLocale].
  rewrite !customLookup_empty, !truthyStr_builtIn, Hb. cbn [truthyStr].
  destruct (table !! code) as [s|] eqn:Hlk; [reflexivity|].
  rewrite (builtInLookup_None_en fallback code (Hen eq_refl)).
  destruct (negb (target =? fallback)%string);
    destruct (DEFAULT_UNKNOWN_MESSAGE target); reflexivity.
Qed.

(** X4: without overrides, resolving in ['en'] gives exactly the default
    message of [getBusinessCodeMessage], whatever the fallback locale; so
    does [getLocalizedMessage] on the module-level instance as created. *)
Theorem english_resolution_is_default_message (l fallback : Locale) (code : Z) :
  getMessage (MkProvider l fallback ∅) code (Some "en") = getBusinessCodeMessage code
  /\ I18n.getLocalizedMessage I18n.messageProvider code None
     = getBusinessCodeMessage code.
Proof.
  assert (H : forall l' fb,
             getMessage (MkProvider l' fb ∅) code (Some "en")
             = getBusinessCodeMessage code).
  { intros l' fb. rewrite (getMessage_no_overrides l' fb "en" code enMessages eq_refl).
    unfold getBusinessCodeMessage. rewrite businessCodeMessages_is_enMessages.
    pose proof (builtInLookup_nonempty "en" code) as Hne.
    change (builtInLookup "en" code) with (enMessages !! code) in Hne.
    unfold orElse, truthyStr.
    destruct (enMessages !! code) as [s|]; [|reflexivity].
    destruct (String.eqb_spec s "") as [->|_]; [congruence | reflexivity]. }
  split; [apply H|]. apply (H "en" "en").
Qed.

(** X5: without overrides, resolving in ['vi'] never falls back to English,
    whatever the fallback locale: a code with a message (every [BusinessCode]
    constant) resolves to its Vietnamese text, and any other code to the
    Vietnamese sentinel. *)
Theorem vietnamese_resolution_never_falls_back (l fallback : Locale) (code : Z) :
  (In code (valuesOf BusinessCode_entries) <-> viMessages !! code <> None)
  /\ getMessage (MkProvider l fallback ∅) code (Some "vi")
     = match viMessages !! code with
       | Some s => s
       | None => "Lỗi không xác định"
       end.
Proof.
  split.
  - rewrite <- businessCodeMessages_keys, businessCodeMessages_is_enMessages.
    pose proof (viMessages_None_iff code) as Hiff. tauto.
  - apply (getMessage_no_overrides l fallback "vi" code viMessages eq_refl).
Qed.

Lemma unknownSentinel_nonempty (target : Locale) : unknownSentinel target <> "".
Proof.
  unfold unknownSentinel, DEFAULT_UNKNOWN_MESSAGE.
  destruct (String.eqb target "en"); [discriminate|].
  destruct (String.eqb target "vi"); discriminate.
Qed.

Lemma firstHit_nonempty (steps : list (option string)) (m : string) :
  firstHit steps = Some m -> m <> "".
Proof.
  induction steps as [|step rest IH]; [discriminate|].
  rewrite firstHit_cons. destruct (truthyStr step) as [s|] eqn:Hs; [|exact IH].
  intros [= <-]. apply truthyStr_Some in Hs. tauto.
Qed.

(** X6: [getMessage] never returns the empty string, whatever the overrides,
    the code and the locale: an empty override is skipped, no built-in
    message is empty, and neither is a sentinel. *)
Theorem getMessage_never_empty (this : BusinessMessageProvider) (code : Z)
    (l : option Locale) :
  getMessage this code l <> "".
Proof.
  rewrite getMessage_as_resolve. unfold resolve. cbv zeta.
  destruct (firstHit (resolutionOrder this (l ?? locale this) code)) as [m|] eqn:Hhit;
    cbn [nullish].
  - eapply firstHit_nonempty, Hhit.
  - apply unknownSentinel_nonempty.
Qed.

Lemma provider_eq (p q : BusinessMessageProvider) :
  locale p = locale q -> fallbackLocale p = fallbackLocale q ->
  customMessages p = customMessages q -> p = q.
Proof. destruct p, q; cbn; intros -> -> ->; reflexivity. Qed.

Lemma register_existing (this : BusinessMessageProvider) (l : Locale)
    (messages : MessageMap) :
  customMessages (registerMessages this l messages) !! l
  = Some (messages ∪ (customMessages this !! l) ?? ∅).
Proof. unfold registerMessages, spread; cbn. apply lookup_insert_eq. Qed.

(** X7: two registrations for one locale amount to a single registration of
    the second map laid over the first, and registering the same map twice
    is the same as registering it once. *)
Theorem registerMessages_twice (this : BusinessMessageProvider) (l : Locale)
    (first second : MessageMap) :
  registerMessages (registerMessages this l first) l second
  = registerMessages this l (second ∪ first)
  /\ registerMessages (registerMessages this l first) l first
     = registerMessages this l first.
Proof.
  assert (H : forall m1 m2,
             registerMessages (registerMessages this l m1) l m2
             = registerMessages this l (m2 ∪ m1)).
  { intros m1 m2. apply provider_eq; try reflexivity.
    unfold registerMessages at 1. cbn [customMessages].
    rewrite register_existing. cbn [nullish].
    unfold registerMessages, spread. cbn [customMessages].
    rewrite insert_insert_eq. f_equal. apply (assoc_L (∪)). }
  split; [apply H|].
  rewrite H. f_equal. apply map_eq. intros code. rewrite lookup_union.
  destruct (first !! code); reflexivity.
Qed.

(** X8: registrations for two different locales commute. *)
Theorem registerMessages_commute (this : BusinessMessageProvider)
    (l1 l2 : Locale) (m1 m2 : MessageMap) :
  l1 <> l2 ->
  registerMessages (registerMessages this l1 m1) l2 m2
  = registerMessages (registerMessages this l2 m2) l1 m1.
Proof.
  intros Hne. apply provider_eq; try reflexivity.
  unfold registerMessages. cbn [customMessages].
  rewrite !lookup_insert_ne by congruence.
  apply insert_insert_ne. congruence.
Qed.

Lemma registerMessages_commute_witness :
  registerMessages (registerMessages (MkProvider "en" "en" ∅) "en" {[ 1 := "a" ]})
    "vi" {[ 2 := "b" ]}
  = registerMessages (registerMessages (MkProvider "en" "en" ∅) "vi" {[ 2 := "b" ]})
      "en" {[ 1 := "a" ]}.
Proof. apply registerMessages_commute. discriminate. Defined.

(** X9: the custom messages a React provider is given are overrides of the
    locale of its props and of no other: its resolver is the one built
    without them, after one registration for that locale. *)
Theorem react_custom_messages_are_a_registration (l : Locale)
    (messages : MessageMap) (fallback : option Locale) :
  BusinessMessageContext.provider
    (BusinessMessageProviderProps.mk l (Some messages) fallback)
  = registerMessages
      (BusinessMessageContext.provider (BusinessMessageProviderProps.mk l None fallback))
      l messages.
Proof.
  apply provider_eq; try reflexivity.
  unfold BusinessMessageContext.provider, registerMessages, new, spread.
  cbn. rewrite lookup_empty. cbn.
  rewrite (right_id_L ∅ (∪)). reflexivity.
Qed.

(** ** The envelope, beyond the claims *)

Lemma paginated_plain_lookup {T : Type} (items : list T) msg status
    (page limit total : Z) (k : string) :
  exists m,
    meta (ApiResponse.paginated
            (PaginatedParams.mk items msg status page limit total None)) = Some m
    /\ m !! k = ApiResponse.computedMeta page limit total !! k.
Proof.
  eexists. split; [apply paginated_meta|].
  cbn [PaginatedParams.meta PaginatedParams.page PaginatedParams.limit
       PaginatedParams.total nullish].
  rewrite spread_lookup, lookup_empty. reflexivity.
Qed.

(** X10: for a limit of at least 1, a total from 0 to below 2^53 and no
    extra metadata, [hasNextPage] is true exactly when the items of the pages
    up to this one do not exhaust the total, that is when
    [page * limit < total]; this holds for every integer page. *)
Theorem hasNextPage_iff_items_remain {T : Type} (items : list T)
    (msg : option string) (status : option Z) (page limit total : Z) :
  1 <= limit -> 0 <= total < 2 ^ 53 ->
  exists m,
    meta (ApiResponse.paginated
            (PaginatedParams.mk items msg status page limit total None)) = Some m
    /\ m !! "hasNextPage" = Some (PBool (page * limit <? total)).
Proof.
  intros Hl Ht.
  destruct (paginated_plain_lookup items msg status page limit total "hasNextPage")
    as (m & Hm & Hk).
  exists m. split; [exact Hm|]. rewrite Hk.
  pose proof (computedMeta_lookup page limit total) as Hlk. cbv zeta in Hlk.
  destruct Hlk as (_ & _ & _ & _ & -> & _).
  destruct (js_ceil_div_spec total limit Ht ltac:(lia)) as (n & -> & Hceil).
  cbn [js_lt_int_num]. unfold isCeilOf in Hceil. do 2 f_equal.
  destruct (Z.ltb_spec page n), (Z.ltb_spec (page * limit) total);
    try reflexivity; exfalso; nia.
Qed.

Lemma hasNextPage_iff_items_remain_witness :
  exists m,
    meta (ApiResponse.paginated
            (PaginatedParams.mk ["a"; "b"] None None 2 10 25 None)) = Some m
    /\ m !! "hasNextPage" = Some (PBool true).
Proof.
  destruct (hasNextPage_iff_items_remain ["a"; "b"] None None 2 10 25
              ltac:(lia) ltac:(lia))
    as (m & Hm & Hk).
  exists m. split; [exact Hm | exact Hk].
Defined.

(** X11: with [limit = 0] and no extra metadata, [totalPages] is not an
    integer: for a positive total it is [Infinity] and [hasNextPage] is true
    on every page; for a total of 0 it is [NaN], and for a negative total
    [-Infinity], and [hasNextPage] is false on every page. *)
Theorem paginated_limit_zero {T : Type} (items : list T) (msg : option string)
    (status : option Z) (page total : Z) :
  exists m,
    meta (ApiResponse.paginated
            (PaginatedParams.mk items msg status page 0 total None)) = Some m
    /\ m !! "totalPages"
       = Some (PNum (if 0 <? total then JPosInf
                     else if total <? 0 then JNegInf else JNaN))
    /\ m !! "hasNextPage" = Some (PBool (0 <? total)).
Proof.
  destruct (paginated_plain_lookup items msg status page 0 total "totalPages")
    as (m & Hm & Htp).
  destruct (paginated_plain_lookup items msg status page 0 total "hasNextPage")
    as (m' & Hm' & Hnext).
  rewrite Hm in Hm'. injection Hm' as <-.
  exists m. split; [exact Hm|]. rewrite Htp, Hnext.
  pose proof (computedMeta_lookup page 0 total) as Hlk. cbv zeta in Hlk.
  destruct Hlk as (_ & _ & _ & -> & -> & _).
  unfold js_ceil_div. cbn [Z.eqb].
  destruct (0 <? total); [split; reflexivity|].
  destruct (total <? 0); split; reflexivity.
Qed.

(** The keys of the computed fields. *)
Lemma computedMeta_keys page limit total (k : string) :
  ApiResponse.computedMeta page limit total !! k <> None
  <-> In k ["page"; "limit"; "total"; "totalPages"; "hasNextPage"; "hasPreviousPage"].
Proof.
  unfold ApiResponse.computedMeta. cbv zeta.
  rewrite <- not_elem_of_list_to_map, list_elem_of_In.
  cbn [fmap list_fmap fst].
  split; [|tauto].
  intros Hnn.
  match goal with
  | |- In _ ?l => destruct (in_dec String.string_dec k l); [assumption|]
  end.
  exfalso. apply Hnn. cbn [In] in *. tauto.
Qed.

(** X12: [paginated] never drops a key: the keys of the resulting [meta] are
    the keys of the extra metadata together with the six computed ones,
    whatever the extra metadata holds. *)
Theorem paginated_meta_keys {T : Type} (p : PaginatedParams.t T) (k : string) :
  exists m,
    meta (ApiResponse.paginated p) = Some m
    /\ (m !! k <> None
        <-> In k ["page"; "limit"; "total"; "totalPages"; "hasNextPage";
                  "hasPreviousPage"]
            \/ (PaginatedParams.meta p ?? ∅) !! k <> None).
Proof.
  eexists. split; [apply paginated_meta|].
  rewrite spread_lookup.
  rewrite <- (computedMeta_keys (PaginatedParams.page p) (PaginatedParams.limit p)
                (PaginatedParams.total p) k).
  destruct ((PaginatedParams.meta p ?? ∅) !! k) as [v|].
  - split; [right; discriminate | discriminate].
  - split; [intros H; left; exact H | intros [H|H]; [exact H | congruence]].
Qed.

Lemma toJSON_asParams {D : Type} (r : ApiResponse D) :
  ApiResponse.new (asParams (ApiResponse.toJSON r)) = r.
Proof. destruct r as [s [d|] [m|] [c|] [mt|] [e|]]; reflexivity. Qed.

(** X13: [toJSON] loses nothing: two envelopes with the same serialization
    are the same envelope. *)
Theorem toJSON_injective {D : Type} (r r' : ApiResponse D) :
  ApiResponse.toJSON r = ApiResponse.toJSON r' -> r = r'.
Proof.
  intros Heq. rewrite <- (toJSON_asParams r), <- (toJSON_asParams r'), Heq.
  reflexivity.
Qed.

Lemma toJSON_injective_witness :
  ApiResponse.noContent None = ApiResponse.noContent (Some "No content").
Proof. apply toJSON_injective. reflexivity. Defined.

Lemma toJSON_error_keys (p : ErrorParams.t) :
  keysOf (ApiResponse.toJSON (ApiResponse.error p))
  = ["success"; "message"; "statusCode"; "error"].
Proof. reflexivity. Qed.

(** X14: the keys that a factory-built envelope serializes to.  An error
    envelope, from [error] or a named shorthand, has exactly [success],
    [message], [statusCode] and [error]; [noContent] has [success],
    [message] and [statusCode]; [created] adds [data]; [paginated] has
    [data] and [meta] as well; and [success] always has [message] and
    [statusCode], never [error], and [data] and [meta] exactly when they
    were given. *)
Theorem factory_wire_shapes :
  (forall p, keysOf (ApiResponse.toJSON (ApiResponse.error p))
             = ["success"; "message"; "statusCode"; "error"])
  /\ (forall m d, keysOf (ApiResponse.toJSON (ApiResponse.badRequest m d))
                  = ["success"; "message"; "statusCode"; "error"])
  /\ (forall m c, keysOf (ApiResponse.toJSON (ApiResponse.unauthorized m c))
                  = ["success"; "message"; "statusCode"; "error"])
  /\ (forall m, keysOf (ApiResponse.toJSON (ApiResponse.forbidden m))
                = ["success"; "message"; "statusCode"; "error"])
  /\ (forall m c, keysOf (ApiResponse.toJSON (ApiResponse.notFound m c))
                  = ["success"; "message"; "statusCode"; "error"])
  /\ (forall m c, keysOf (ApiResponse.toJSON (ApiResponse.conflict m c))
                  = ["success"; "message"; "statusCode"; "error"])
  /\ (forall d m, keysOf (ApiResponse.toJSON (ApiResponse.validationError d m))
                  = ["success"; "message"; "statusCode"; "error"])
  /\ (forall m, keysOf (ApiResponse.toJSON (ApiResponse.tooManyRequests m))
                = ["success"; "message"; "statusCode"; "error"])
  /\ (forall m, keysOf (ApiResponse.toJSON (ApiResponse.internalError m))
                = ["success"; "message"; "statusCode"; "error"])
  /\ (forall m, keysOf (ApiResponse.toJSON (ApiResponse.noContent m))
                = ["success"; "message"; "statusCode"])
  /\ (forall D (d : D) m, keysOf (ApiResponse.toJSON (ApiResponse.created d m))
                          = ["success"; "data"; "message"; "statusCode"])
  /\ (forall T (p : PaginatedParams.t T),
        keysOf (ApiResponse.toJSON (ApiResponse.paginated p))
        = ["success"; "data"; "message"; "statusCode"; "meta"])
  /\ (forall D (p : SuccessParams.t D),
        keysOf (ApiResponse.toJSON (ApiResponse.success p))
        = (["success"]
             ++ match SuccessParams.data p with Some _ => ["data"] | None => [] end
             ++ ["message"; "statusCode"]
             ++ match SuccessParams.meta p with Some _ => ["meta"] | None => [] end)%list).
Proof.
  repeat match goal with |- _ /\ _ => split end; intros;
    try apply toJSON_error_keys; try reflexivity.
  destruct p as [[d|] m s [mt|]]; reflexivity.
Qed.

(** ** The exception filter *)

Import ApiExceptionFilter.

Lemma attachStack_fields options stack (r : ApiResponse JsNull) :
  success (attachStack options stack r) = success r
  /\ data (attachStack options stack r) = data r
  /\ message (attachStack options stack r) = message r
  /\ statusCode (attachStack options stack r) = statusCode r
  /\ meta (attachStack options stack r) = meta r.
Proof.
  unfold attachStack.
  destruct (ApiExceptionFilterOptions.includeStack options) as [[]|];
    destruct (truthyStr stack); repeat split.
Qed.

Lemma attachStack_error options stack (p : ErrorParams.t) :
  errorCode (attachStack options stack (ApiResponse.error p))
  = errorCode (ApiResponse.error p)
  /\ error (attachStack options stack (ApiResponse.error p)) <> None
  /\ errorStack (attachStack options stack (ApiResponse.error p))
     = match ApiExceptionFilterOptions.includeStack options with
       | Some true => truthyStr stack
       | _ => None
       end.
Proof.
  unfold attachStack.
  destruct (ApiExceptionFilterOptions.includeStack options) as [[]|];
    destruct (truthyStr stack); repeat split; discriminate.
Qed.

Lemma mapHttpStatusToBusinessCode_cases (httpStatus : Z) :
  In (httpStatus, mapHttpStatusToBusinessCode httpStatus)
     [(400, 3002); (401, 1001); (403, 1007); (404, 4001); (409, 4008);
      (422, 3001); (429, 7015); (500, 5001); (503, 5004)]
  \/ (~ In httpStatus [400; 401; 403; 404; 409; 422; 429; 500; 503]
      /\ mapHttpStatusToBusinessCode httpStatus = 5001).
Proof.
  unfold mapHttpStatusToBusinessCode.
  destruct (in_dec Z.eq_dec httpStatus [400; 401; 403; 404; 409; 422; 429; 500; 503])
    as [Hin|Hnin].
  - left. cbn [In] in Hin.
    repeat (destruct Hin as [<-|Hin]; [vm_compute; tauto|]). contradiction.
  - right. split; [exact Hnin|].
    assert (Hnone : mapping !! httpStatus = None).
    { unfold mapping. apply not_elem_of_list_to_map. rewrite list_elem_of_In.
      exact Hnin. }
    rewrite Hnone. reflexivity.
Qed.

Section FilterProperties.

Variable arrayValue : list JsPrim -> JsPrim.

Lemma toApiResponse_shape options exception :
  exists (p : ErrorParams.t) (stack : option string) (keep : bool),
    toApiResponse arrayValue options exception
    = (if keep then attachStack options stack (ApiResponse.error p)
       else ApiResponse.error p)
    /\ ErrorParams.message p <> None
    /\ ErrorParams.code p <> None
    /\ ErrorParams.statusCode p <> None.
Proof.
  destruct exception as [e stack|status response msg stack|msg stack|];
    cbn [toApiResponse].
  - eexists _, stack, true. repeat split; discriminate.
  - destruct response as [s|[| s | items]|];
      eexists _, None, false; repeat split; discriminate.
  - eexists _, stack, true. repeat split; discriminate.
  - eexists _, None, false. repeat split; discriminate.
Qed.

Lemma toApiResponse_fields (options : ApiExceptionFilterOptions.t)
    (exception : Thrown) :
  let r := toApiResponse arrayValue options exception in
  success r = false
  /\ consistent r
  /\ data r = None
  /\ meta r = None
  /\ message r <> None
  /\ statusCode r <> None
  /\ errorCode r <> None.
Proof.
  cbv zeta.
  destruct (toApiResponse_shape options exception)
    as (p & stack & keep & -> & Hm & Hc & Hs).
  assert (Hbase : forall r : ApiResponse JsNull,
            success r = success (ApiResponse.error p) ->
            data r = data (ApiResponse.error p) ->
            message r = message (ApiResponse.error p) ->
            statusCode r = statusCode (ApiResponse.error p) ->
            meta r = meta (ApiResponse.error p) ->
            errorCode r = errorCode (ApiResponse.error p) ->
            error r <> None ->
            success r = false /\ consistent r /\ data r = None /\ meta r = None
            /\ message r <> None /\ statusCode r <> None /\ errorCode r <> None).
  { intros r Hsu Hd Hme Hst Hmt Hec Her.
    rewrite Hme, Hst, Hec, Hsu, Hd, Hmt. cbn.
    repeat match goal with |- _ /\ _ => split end;
      try reflexivity; try discriminate.
    unfold consistent. rewrite Hsu, Hd. cbn.
    split; [split; [discriminate | intros H; contradiction] | reflexivity]. }
  destruct keep.
  - pose proof (attachStack_fields options stack (ApiResponse.error p))
      as (H1 & H2 & H3 & H4 & H5).
    pose proof (attachStack_error options stack p) as (H6 & H7 & _).
    apply Hbase; assumption.
  - apply Hbase; try reflexivity. discriminate.
Qed.

(** X15: an [HttpException] whose response is [null] makes the filter throw
    a [TypeError] instead of building an envelope; for everything else that
    is thrown, and whatever the options, the envelope the filter builds is a
    failure envelope that keeps the discriminant invariant: [success] is
    false, [data] and [meta] are absent, and [message], [statusCode] and
    [error.code] are all defined. *)
Theorem filter_builds_failure_envelope (options : ApiExceptionFilterOptions.t)
    (raised : Raised) :
  (buildEnvelope arrayValue options raised = None
   <-> exists status msg stack, raised = HttpWithNullResponse status msg stack)
  /\ (forall r,
        buildEnvelope arrayValue options raised = Some r ->
        success r = false
        /\ consistent r
        /\ data r = None
        /\ meta r = None
        /\ message r <> None
        /\ statusCode r <> None
        /\ errorCode r <> None).
Proof.
  destruct raised as [exception|status msg stack]; cbn [buildEnvelope]; split.
  - split; [discriminate | intros (? & ? & ? & [=])].
  - intros r [= <-]. apply toApiResponse_fields.
  - split; [eauto | reflexivity].
  - discriminate.
Qed.

(** X16: [catch] ends in one of three ways.  It throws a [TypeError], before
    the logger is called, exactly for an [HttpException] whose response is
    [null].  Otherwise it hands nothing to the response when the logger
    throws, since it logs before it responds.  Otherwise it hands over the
    envelope it built, under the HTTP status the envelope carries, except
    that a carried status of 0 is handed over as 500 while the body still
    says 0. *)
Theorem filter_sends_envelope_status (options : ApiExceptionFilterOptions.t)
    (raised : Raised) :
  (catch arrayValue options raised = ThrewTypeError
   <-> exists status msg stack, raised = HttpWithNullResponse status msg stack)
  /\ (catch arrayValue options raised = LoggerThrew
      <-> exists exception logger,
            raised = Classified exception
            /\ ApiExceptionFilterOptions.logger options = Some logger
            /\ logger exception "ApiExceptionFilter" = Threw)
  /\ (forall sent,
        catch arrayValue options raised = Responded sent ->
        buildEnvelope arrayValue options raised = Some (Sent.json sent)
        /\ exists s,
             statusCode (Sent.json sent) = Some s
             /\ Sent.status sent = (if s =? 0 then 500 else s)).
Proof.
  destruct raised as [exception|status msg stack]; cbn [catch buildEnvelope].
  2:{ repeat split; try discriminate; eauto.
      intros (? & ? & [=] & _). }
  cbv zeta.
  pose proof (toApiResponse_fields options exception) as Hshape.
  cbv zeta in Hshape. destruct Hshape as (_ & _ & _ & _ & _ & Hst & _).
  assert (Hsent : forall sent,
            Responded
              (Sent.mk
                 (orElseNum (statusCode (toApiResponse arrayValue options exception))
                            HttpStatus.INTERNAL_SERVER_ERROR)
                 (toApiResponse arrayValue options exception))
            = Responded sent ->
            Some (toApiResponse arrayValue options exception)
            = Some (Sent.json sent)
            /\ exists s,
                 statusCode (Sent.json sent) = Some s
                 /\ Sent.status sent = (if s =? 0 then 500 else s)).
  { intros sent [= <-]. cbn. split; [reflexivity|].
    destruct (statusCode (toApiResponse arrayValue options exception)) as [s|];
      [|contradiction].
    exists s. split; reflexivity. }
  split; [split; [|intros (? & ? & ? & [=])]|split].
  - destruct (ApiExceptionFilterOptions.logger options) as [logger|];
      [destruct (logger exception "ApiExceptionFilter")|]; discriminate.
  - destruct (ApiExceptionFilterOptions.logger options) as [logger|].
    + destruct (logger exception "ApiExceptionFilter") eqn:Hlog.
      * split; [discriminate|]. intros (e & f & [= <-] & [= <-] & Hf). congruence.
      * split; [intros _; eauto | reflexivity].
    + split; [discriminate | intros (e & f & _ & Hf & _); discriminate].
  - destruct (ApiExceptionFilterOptions.logger options) as [logger|];
      [destruct (logger exception "ApiExceptionFilter")|];
      first [ exact Hsent | discriminate ].
Qed.

(** X17: a stack trace reaches the response only when [includeStack] is
    true, only for a [BusinessException] or a plain [Error], and only when
    the stack is a non-empty string; the stack of an [HttpException] is never
    sent, with [includeStack] or without. *)
Theorem filter_stack_exposure (options : ApiExceptionFilterOptions.t)
    (exception : Thrown) :
  errorStack (toApiResponse arrayValue options exception)
  = match ApiExceptionFilterOptions.includeStack options, exception with
    | Some true, ThrownBusiness _ stack => truthyStr stack
    | Some true, ThrownError _ stack => truthyStr stack
    | _, _ => None
    end.
Proof.
  destruct exception as [e stack|status response msg stack|msg stack|];
    cbn [toApiResponse].
  - rewrite (proj2 (proj2 (attachStack_error options stack _))).
    destruct (ApiExceptionFilterOptions.includeStack options) as [[]|]; reflexivity.
  - destruct response as [s|[| s | items]|];
      destruct (ApiExceptionFilterOptions.includeStack options) as [[]|]; reflexivity.
  - rewrite (proj2 (proj2 (attachStack_error options stack _))).
    destruct (ApiExceptionFilterOptions.includeStack options) as [[]|]; reflexivity.
  - destruct (ApiExceptionFilterOptions.includeStack options) as [[]|]; reflexivity.
Qed.

(** X18: an [HttpException] is never reported under a success code: the
    business code the filter maps its status to always lies in one of the
    seven error ranges and is a [BusinessCode] constant, and every status
    outside the nine mapped ones gives [INTERNAL_ERROR]. *)
Theorem filter_http_code_is_an_error_code (status : Z)
    (response : HttpExceptionResponse) (msg : string) (stack : option string)
    (options : ApiExceptionFilterOptions.t) :
  exists code,
    errorCode (toApiResponse arrayValue options (ThrownHttp status response msg stack))
    = Some code
    /\ code = mapHttpStatusToBusinessCode status
    /\ isSuccessCode code = false
    /\ countTrue code = 1%nat
    /\ In code (valuesOf BusinessCode_entries)
    /\ (~ In status [400; 401; 403; 404; 409; 422; 429; 500; 503] ->
        code = BusinessCode.INTERNAL_ERROR).
Proof.
  exists (mapHttpStatusToBusinessCode status).
  split; [destruct response as [s|[| s | items]|]; reflexivity|].
  split; [reflexivity|].
  destruct (mapHttpStatusToBusinessCode_cases status) as [Hin|[Hnin ->]].
  - cbn [In] in Hin.
    repeat (destruct Hin as [[= <- <-]|Hin];
            [repeat split; try (vm_compute; tauto);
             intros Hn; exfalso; apply Hn; vm_compute; tauto|]).
    contradiction.
  - repeat split; vm_compute; tauto.
Qed.

End FilterProperties.

(** X19: one table of pairs throughout: each named error shorthand of
    [ApiResponse], called without a code of its own, and each exception
    class, built with its default code, pairs its HTTP status with the
    business code that the filter maps that status to. *)
Theorem status_and_code_pairs_agree :
  (forall m d, envelopePaired (ApiResponse.badRequest m d))
  /\ (forall m, envelopePaired (ApiResponse.unauthorized m None))
  /\ (forall m, envelopePaired (ApiResponse.forbidden m))
  /\ (forall m, envelopePaired (ApiResponse.notFound m None))
  /\ (forall m, envelopePaired (ApiResponse.conflict m None))
  /\ (forall d m, envelopePaired (ApiResponse.validationError d m))
  /\ (forall m, envelopePaired (ApiResponse.tooManyRequests m))
  /\ (forall m, envelopePaired (ApiResponse.internalError m))
  /\ (forall d m, exceptionPaired (ValidationException d m))
  /\ (forall m, exceptionPaired (AuthException None m))
  /\ (forall m, exceptionPaired (ForbiddenException m))
  /\ (forall m, exceptionPaired (NotFoundException m None))
  /\ (forall m, exceptionPaired (ConflictException m None))
  /\ (forall m, exceptionPaired (RateLimitException m))
  /\ (forall m, exceptionPaired (InternalServerException m None))
  /\ (forall m, exceptionPaired (BadRequestException m None))
  /\ (forall m, exceptionPaired (ServiceUnavailableException m None)).
Proof.
  repeat match goal with |- _ /\ _ => split end; intros;
    first [ do 2 eexists; repeat split; vm_compute; reflexivity
          | vm_compute; reflexivity ].
Qed.

Section FilterComposition.

Variable arrayValue : list JsPrim -> JsPrim.

Lemma attachStack_off options stack (r : ApiResponse JsNull) :
  ApiExceptionFilterOptions.includeStack options <> Some true ->
  attachStack options stack r = r.
Proof.
  intros Hoff. unfold attachStack.
  destruct (ApiExceptionFilterOptions.includeStack options) as [[]|];
    [contradiction | reflexivity | reflexivity].
Qed.

(** X20: throwing an exception class and letting the filter convert it gives
    the very envelope of the matching [ApiResponse] shorthand, when stack
    traces are not included: for [ValidationException], [RateLimitException],
    [InternalServerException] and [BadRequestException] with any message or
    none, and for [AuthException], [ForbiddenException], [NotFoundException]
    and [ConflictException] with a message of their own (their default
    messages differ from the shorthands'). *)
Theorem filter_of_exception_is_shorthand (options : ApiExceptionFilterOptions.t)
    (stack : option string) :
  ApiExceptionFilterOptions.includeStack options <> Some true ->
  (forall d m, toApiResponse arrayValue options
                 (ThrownBusiness (ValidationException d m) stack)
               = ApiResponse.validationError d m)
  /\ (forall m, toApiResponse arrayValue options
                  (ThrownBusiness (RateLimitException m) stack)
                = ApiResponse.tooManyRequests m)
  /\ (forall m, toApiResponse arrayValue options
                  (ThrownBusiness (InternalServerException m None) stack)
                = ApiResponse.internalError m)
  /\ (forall m, toApiResponse arrayValue options
                  (ThrownBusiness (BadRequestException m None) stack)
                = ApiResponse.badRequest m None)
  /\ (forall m c, toApiResponse arrayValue options
                    (ThrownBusiness (AuthException c (Some m)) stack)
                  = ApiResponse.unauthorized (Some m) c)
  /\ (forall m, toApiResponse arrayValue options
                  (ThrownBusiness (ForbiddenException (Some m)) stack)
                = ApiResponse.forbidden (Some m))
  /\ (forall m c, toApiResponse arrayValue options
                    (ThrownBusiness (NotFoundException (Some m) c) stack)
                  = ApiResponse.notFound (Some m) c)
  /\ (forall m c, toApiResponse arrayValue options
                    (ThrownBusiness (ConflictException (Some m) c) stack)
                  = ApiResponse.conflict (Some m) c).
Proof.
  intros Hoff.
  repeat match goal with |- _ /\ _ => split end; intros;
    cbn [toApiResponse]; rewrite attachStack_off by assumption;
    try reflexivity.
Qed.

End FilterComposition.

Lemma filter_of_exception_is_shorthand_witness :
  toApiResponse (fun _ => PNull) ApiExceptionFilterOptions.empty
    (ThrownBusiness (NotFoundException (Some "No such order") None) (Some "at f"))
  = ApiResponse.notFound (Some "No such order") None.
Proof.
  apply (filter_of_exception_is_shorthand (fun _ => PNull)
           ApiExceptionFilterOptions.empty (Some "at f")).
  discriminate.
Defined.

(** ** The response interceptor *)

(** X21: the interceptor hands an envelope that the handler returned back
    unchanged, a failure envelope included and whatever the response status,
    exactly when [skipIfWrapped] is left out of the options or is [true]; an
    explicit [undefined] turns the pass-through off like [false] does. *)
Theorem interceptor_pass_through_iff {T : Type}
    (options : ApiResponseInterceptorOptions.t) (status : Z) (r : ApiResponse T) :
  ApiResponseInterceptor.intercept (ApiResponseInterceptor.new options) status
    (IsApiResponse r) = PassedThrough r
  <-> ApiResponseInterceptorOptions.skipIfWrapped options = KeyMissing
      \/ ApiResponseInterceptorOptions.skipIfWrapped options = KeyGiven (Some true).
Proof.
  unfold ApiResponseInterceptor.intercept, ApiResponseInterceptor.transform,
    ApiResponseInterceptor.new.
  cbn [ApiResponseInterceptor.skipIfWrapped].
  destruct (ApiResponseInterceptorOptions.skipIfWrapped options) as [|[[]|]];
    cbn [spreadOver].
  - split; [intros _; left; reflexivity | reflexivity].
  - split; [intros _; right; reflexivity | reflexivity].
  - destruct (status =? HttpStatus.NO_CONTENT);
      (split; [discriminate | intros [H|H]; discriminate]).
  - destruct (status =? HttpStatus.NO_CONTENT);
      (split; [discriminate | intros [H|H]; discriminate]).
Qed.

(** X22: a value that is not an envelope is never passed through.  Under a
    response status of 204 it is dropped, together with the configured
    default message, for the [noContent()] envelope; under any other status
    it is wrapped in a success envelope that carries the value, the response
    status, and the default message, ['Success'] when that is missing or
    [undefined]. *)
Theorem interceptor_wraps_other_values {T : Type}
    (options : ApiResponseInterceptorOptions.t) (status : Z) (v : option T) :
  let result :=
    ApiResponseInterceptor.intercept (ApiResponseInterceptor.new options) status
      (IsOther v) in
  (status = 204 ->
     result = NoContent (ApiResponse.noContent None)
     /\ message (ApiResponse.noContent None) = Some "No content")
  /\ (status <> 204 ->
      exists w,
        result = Wrapped w
        /\ success w = true
        /\ error w = None
        /\ statusCode w = Some status
        /\ message w
           = Some (match ApiResponseInterceptorOptions.defaultMessage options with
                   | KeyGiven (Some m) => m
                   | _ => "Success"
                   end)
        /\ data w = match v with
                    | Some x => Some (IsOther (Some x))
                    | None => None
                    end).
Proof.
  cbv zeta.
  unfold ApiResponseInterceptor.intercept, ApiResponseInterceptor.transform.
  assert (Hskip : forall o : option bool,
            match o, IsOther v with
            | Some true, IsApiResponse r => PassedThrough r
            | _, _ =>
                if status =? HttpStatus.NO_CONTENT
                then NoContent (ApiResponse.noContent None)
                else Wrapped
                       (ApiResponse.success
                          (SuccessParams.mk
                             match IsOther v with
                             | IsOther None => None
                             | _ => Some (IsOther v)
                             end
                             (ApiResponseInterceptor.defaultMessage
                                (ApiResponseInterceptor.new options))
                             (Some status) None))
            end
            = if status =? HttpStatus.NO_CONTENT
              then NoContent (ApiResponse.noContent None)
              else Wrapped
                     (ApiResponse.success
                        (SuccessParams.mk
                           match v with
                           | Some x => Some (IsOther (Some x))
                           | None => None
                           end
                           (ApiResponseInterceptor.defaultMessage
                              (ApiResponseInterceptor.new options))
                           (Some status) None))).
  { intros [[]|]; destruct v; reflexivity. }
  rewrite Hskip. clear Hskip. split.
  - intros ->. split; reflexivity.
  - intros Hne.
    destruct (Z.eqb_spec status HttpStatus.NO_CONTENT) as [Heq|_];
      [exfalso; apply Hne; exact Heq|].
    eexists. split; [reflexivity|].
    repeat split.
    cbn. destruct (ApiResponseInterceptorOptions.defaultMessage options) as [|[m|]];
      reflexivity.
Qed.

(** ** The Next.js helpers *)

Section NextHelperProperties.

Variable convertsInit : NextResponseOptions.t -> bool.
Variable serializes : forall D : Type, D -> bool.
Variable acceptsInit : option NextResponseOptions.t -> bool.

Lemma Response_json_Ok {D : Type} (r : ApiResponse D) (status : Z) options :
  convertible convertsInit options = true ->
  serializesBody serializes r = true ->
  Response.inStatusRange status = true ->
  Response.isNullBodyStatus status = false ->
  acceptsInit options = true ->
  Response_json convertsInit serializes acceptsInit r status options
  = Ok (Response.mk status (Response.optionsStatusText options)
          (Response.optionsHeaders options) (Some (ApiResponse.toJSON r))).
Proof.
  intros Hc Hs Hr Hn Ha. unfold Response_json. cbv zeta.
  assert (Response.toUnsignedShort status = status) as ->.
  { unfold Response.toUnsignedShort, Response.inStatusRange in *.
    apply andb_true_iff in Hr as [H1 H2].
    apply Z.leb_le in H1, H2. apply Z.mod_small. lia. }
  rewrite Hc, Hs, Hr, Hn, Ha. reflexivity.
Qed.



(** Close a [respondsWith] goal whose outcome is an explicit response. *)
Ltac solve_responds :=
  unfold respondsWith;
  eexists; split; [reflexivity|]; split; [reflexivity|];
  eexists; split; [reflexivity|]; split; [reflexivity|];
  first [ eexists; split; reflexivity | split; reflexivity ].

(** What a helper answers: a response with this status line whose body is
    an envelope carrying the same status. *)
Lemma jsonError_fixed (message : string) (status code : Z)
    (details : option (gmap string JsPrim)) (options : option NextResponseOptions.t) :
  convertible convertsInit options = true ->
  Response.inStatusRange status = true ->
  Response.isNullBodyStatus status = false ->
  acceptsInit options = true ->
  respondsWith
    (jsonError convertsInit serializes acceptsInit message (Some status)
       (Some code) details options)
    status (Some code).
Proof.
  intros Hc Hr Hn Ha. unfold jsonError. cbv zeta. cbn [nullish].
  rewrite Response_json_Ok by (assumption || reflexivity).
  solve_responds.
Qed.


(** X25: a handler wrapped by [withErrorHandler] answers with its own
    response when it resolves; when it rejects, the wrapper answers 500 with
    the [INTERNAL_ERROR] code, under the message of the [Error] that was
    thrown (even an empty one) or, for any other thrown value, under
    ['An unexpected error occurred'].  [parseBody] turns a body that does not
    parse into a 400 response with the [INVALID_INPUT] code. *)
Theorem recovery_helpers_respond {D Ctx T : Type}
    (handler : Request -> option Ctx -> Settled (Response.t D))
    (request : Request) (context : option Ctx) :
  acceptsInit None = true ->
  (forall r, handler request context = Resolved r ->
     withErrorHandler convertsInit serializes acceptsInit handler request context
     = FromHandler r)
  /\ (forall error, handler request context = Rejected error ->
       exists outcome response body,
         withErrorHandler convertsInit serializes acceptsInit handler request
           context
         = FromCatch outcome
         /\ respondsWith outcome 500 (Some 5001)
         /\ outcome = Ok response
         /\ Response.body response = Some body
         /\ getProp body "message"
            = Some (FStr (match error with
                          | CaughtError message => message
                          | _ => "An unexpected error occurred"
                          end)))
  /\ (forall (data : T),
        parseBody convertsInit serializes acceptsInit (Resolved data) = inl data)
  /\ (forall error,
        exists outcome,
          parseBody (T := T) convertsInit serializes acceptsInit (Rejected error)
          = inr outcome
          /\ respondsWith outcome 400 (Some 3002)).
Proof.
  intros Ha.
  repeat match goal with |- _ /\ _ => split end.
  - intros r Hr. unfold withErrorHandler. rewrite Hr. reflexivity.
  - intros error Hr. unfold withErrorHandler. rewrite Hr.
    destruct error as [message|s|];
      (eexists _, _, _; split; [reflexivity|];
       split; [apply jsonError_fixed; [reflexivity | reflexivity | reflexivity | exact Ha]|];
       unfold jsonInternalError, jsonError; cbv zeta; cbn [nullish];
       rewrite Response_json_Ok by (reflexivity || exact Ha);
       split; [reflexivity|]; split; reflexivity).
  - reflexivity.
  - intros error. eexists. split; [reflexivity|].
    apply jsonError_fixed; [reflexivity | reflexivity | reflexivity | exact Ha].
Qed.

End NextHelperProperties.


Lemma recovery_helpers_respond_witness :
  withErrorHandler (D := JsNull) (Ctx := unit) (fun _ => true)
    (fun _ _ => true) (fun _ => true)
    (fun _ _ => Resolved (Response.mk 200 None None None))
    (MkRequest []) None
  = FromHandler (Response.mk 200 None None None).
Proof.
  apply (proj1 (recovery_helpers_respond (T := unit) (fun _ => true)
                  (fun _ _ => true) (fun _ => true)
                  (fun _ _ => Resolved (Response.mk 200 None None None))
                  (MkRequest []) None eq_refl)).
  reflexivity.
Defined.

(** ** The React hook *)

Section HookProperties.

Variable arrayValue : list JsPrim -> JsPrim.

(** X26: what [getResponseMessage] shows for an envelope the library built.
    For a success envelope it is the envelope's own message.  For a failure
    envelope, from [error] or from the exception filter, it is the localized
    message of the envelope's business code, and the message the server
    wrote is never shown. *)
Theorem getResponseMessage_of_library_envelopes
    (props : BusinessMessageProviderProps.t) :
  (forall D (p : SuccessParams.t D),
      BusinessMessageContext.getResponseMessage props (ApiResponse.success p)
      = SuccessParams.message p ?? "Success")
  /\ (forall T (p : PaginatedParams.t T),
        BusinessMessageContext.getResponseMessage props (ApiResponse.paginated p)
        = PaginatedParams.message p ?? "Success")
  /\ (forall p,
        BusinessMessageContext.getResponseMessage props (ApiResponse.error p)
        = BusinessMessageContext.getMessage props
            (ErrorParams.code p ?? BusinessCode.INTERNAL_ERROR))
  /\ (forall options exception,
        exists code,
          errorCode (toApiResponse arrayValue options exception) = Some code
          /\ BusinessMessageContext.getResponseMessage props
               (toApiResponse arrayValue options exception)
             = BusinessMessageContext.getMessage props code).
Proof.
  repeat match goal with |- _ /\ _ => split end; try reflexivity.
  intros options exception.
  pose proof (toApiResponse_fields arrayValue options exception) as Hf.
  cbv zeta in Hf. destruct Hf as (Hs & _ & _ & _ & _ & _ & Hc).
  destruct (errorCode (toApiResponse arrayValue options exception)) as [code|] eqn:Hcode;
    [|contradiction].
  exists code. split; [reflexivity|].
  unfold BusinessMessageContext.getResponseMessage. rewrite Hs.
  unfold errorCode in Hcode. rewrite Hcode. reflexivity.
Qed.

End HookProperties.

(** ** Pagination parameters, beyond the claims *)

Lemma parsePagination_limit_at_least_one longForm request options (l : Z) :
  1 <= maxLimitOf options ->
  Pagination.limit (parsePagination longForm request options) = JInt l ->
  1 <= l.
Proof.
  intros Hmax. rewrite parsePagination_unfold. cbn [Pagination.limit].
  destruct (parseInt (limitSource longForm request options)) as [n| | |];
    cbn [js_max_int js_min_int]; intros [= <-]; lia.
Qed.

(** X27: what [parsePagination] returns can be handed to [paginated]
    without meeting the division by zero: with [maxLimit >= 1], whenever the
    parsed limit is a number it is at least 1, so that for every total from
    0 to below 2^53 the [totalPages] of the paginated envelope is an
    integer, the ceiling of [total / limit]. *)
Theorem parsed_limit_never_divides_by_zero {T : Type} (longForm : Z -> string)
    (request : Request) (options : option PaginationOptions.t)
    (items : list T) (page limit total : Z) :
  1 <= maxLimitOf options ->
  0 <= total < 2 ^ 53 ->
  parsePagination longForm request options
  = Pagination.mk (JInt page) (JInt limit) ->
  exists m n,
    meta (ApiResponse.paginated
            (PaginatedParams.mk items None None page limit total None)) = Some m
    /\ m !! "totalPages" = Some (PNum (JInt n))
    /\ isCeilOf total limit n.
Proof.
  intros Hmax Ht Hparsed.
  assert (Hl : 1 <= limit).
  { apply (parsePagination_limit_at_least_one longForm request options);
      [exact Hmax|].
    rewrite Hparsed. reflexivity. }
  destruct (paginated_plain_lookup items None None page limit total "totalPages")
    as (m & Hm & Hk).
  destruct (js_ceil_div_spec total limit Ht ltac:(lia)) as (n & Hn & Hceil).
  exists m, n. split; [exact Hm|]. split; [|exact Hceil].
  rewrite Hk.
  pose proof (computedMeta_lookup page limit total) as Hlk. cbv zeta in Hlk.
  destruct Hlk as (_ & _ & _ & -> & _). rewrite Hn. reflexivity.
Qed.

Lemma parsed_limit_never_divides_by_zero_witness :
  exists m n,
    meta (ApiResponse.paginated
            (PaginatedParams.mk ["a"] None None 1 1 7 None)) = Some m
    /\ m !! "totalPages" = Some (PNum (JInt n))
    /\ isCeilOf 7 1 n.
Proof.
  apply (parsed_limit_never_divides_by_zero (fun _ => "")
           (MkRequest [("page", "0"); ("limit", "0")]) None ["a"] 1 1 7).
  - vm_compute. discriminate.
  - lia.
  - vm_compute. reflexivity.
Defined.

Lemma String_of_number_truthy (longForm : Z -> string) (n : Z) :
  isSafeInteger n = true ->
  truthyStr (Some (String_of_number longForm n))
  = Some (String_of_number longForm n).
Proof.
  intros Hsafe. apply truthyStr_Some. split; [reflexivity|].
  intros Hempty. pose proof (parseInt_String_of_number longForm n Hsafe) as Hp.
  rewrite Hempty in Hp. discriminate Hp.
Qed.

(** X28: parsing is idempotent on safe integers: a request that carries, as
    its [page] and [limit] parameters, the numbers that [parsePagination]
    returned is parsed to those same numbers under the same options, when
    both are safe integers (of magnitude below 2^53). *)
Theorem parsePagination_idempotent (longForm : Z -> string) (request : Request)
    (options : option PaginationOptions.t) (page limit : Z) :
  isSafeInteger page = true -> isSafeInteger limit = true ->
  parsePagination longForm request options
  = Pagination.mk (JInt page) (JInt limit) ->
  parsePagination longForm
    (MkRequest [("page", String_of_number longForm page);
                ("limit", String_of_number longForm limit)])
    options
  = Pagination.mk (JInt page) (JInt limit).
Proof.
  intros Hsp Hsl. rewrite !parsePagination_unfold. intros [= Hp Hl].
  unfold pageSource at 1, limitSource at 1, orElse.
  cbn [searchParams searchParams_get String.eqb Ascii.eqb Bool.eqb].
  rewrite !String_of_number_truthy, !parseInt_String_of_number by assumption.
  cbn [js_max_int js_min_int]. f_equal; f_equal.
  - destruct (parseInt (pageSource longForm request options)) as [n| | |];
      cbn [js_max_int] in Hp; try discriminate Hp; injection Hp as <-; lia.
  - destruct (parseInt (limitSource longForm request options)) as [n| | |];
      cbn [js_max_int js_min_int] in Hl; try discriminate Hl;
      injection Hl as <-; lia.
Qed.

Lemma parsePagination_idempotent_witness :
  parsePagination (fun _ => "")
    (MkRequest [("page", String_of_number (fun _ => "") 1);
                ("limit", String_of_number (fun _ => "") 100)])
    None
  = Pagination.mk (JInt 1) (JInt 100).
Proof.
  apply (parsePagination_idempotent (fun _ => "")
           (MkRequest [("page", "-5"); ("limit", "500")]) None 1 100).
  - reflexivity.
  - reflexivity.
  - vm_compute. reflexivity.
Defined.

Lemma parseDigits_Some (s : string) (acc : Z) :
  parseDigits s (Some acc) <> None.
Proof.
  revert acc. induction s as [|c rest IH]; intros acc; cbn [parseDigits];
    [discriminate|].
  destruct (digitValue c); [apply IH | discriminate].
Qed.

Lemma parseDigits_None_iff (s : string) :
  parseDigits s None = None <-> startsWithDigit s = false.
Proof.
  destruct s as [|c rest]; cbn [parseDigits startsWithDigit]; [tauto|].
  destruct (digitValue c) as [d|]; [|tauto].
  split; [intros H; exfalso; exact (parseDigits_Some _ _ H) | discriminate].
Qed.

Lemma parseInt_NaN_iff (s : string) :
  parseInt s = JNaN <-> looksNumeric s = false.
Proof.
  rewrite parseInt_body. unfold looksNumeric.
  rewrite <- parseDigits_None_iff.
  destruct (parseDigits (withoutSign (trimStart s)) None) as [n|];
    split; try discriminate; try reflexivity.
  intros H. exfalso. exact (js_number_of_Z_not_NaN _ H).
Qed.

(** X29: [parsePagination] returns [NaN] for the page exactly when the value
    read for it (the parameter, or the default when the parameter is absent
    or empty) does not start, after white space and an optional sign, with a
    decimal digit, and likewise for the limit.  White space is what the
    runtime skips: the line terminators and space characters of Unicode,
    U+00A0 and U+FEFF among them. *)
Theorem parsePagination_NaN_iff (longForm : Z -> string) (request : Request)
    (options : option PaginationOptions.t) :
  (Pagination.page (parsePagination longForm request options) = JNaN
   <-> looksNumeric (pageSource longForm request options) = false)
  /\ (Pagination.limit (parsePagination longForm request options) = JNaN
      <-> looksNumeric (limitSource longForm request options) = false).
Proof.
  rewrite parsePagination_unfold. cbn [Pagination.page Pagination.limit].
  rewrite <- !parseInt_NaN_iff.
  split.
  - destruct (parseInt (pageSource longForm request options));
      cbn [js_max_int]; split; (discriminate || reflexivity).
  - destruct (parseInt (limitSource longForm request options));
      cbn [js_max_int js_min_int]; split; (discriminate || reflexivity).
Qed.

(** What is trimmed from a string that starts with a number does not
    depend on what follows the string. *)
Lemma trimStart_app_fuel (n : nat) (s t : string) :
  (String.length s <= n)%nat ->
  startsWithDigit (withoutSign (trimStart s)) = true ->
  trimStart (s ++ t) = (trimStart s ++ t)%string.
Proof.
  revert s. induction n as [|n IH]; intros s Hlen Hnum.
  { destruct s; [discriminate Hnum | cbn in Hlen; lia]. }
  destruct s as [|c1 rest1]; [discriminate Hnum|].
  destruct (isWhiteSpace c1) eqn:Hws.
  { change (String c1 rest1 ++ t)%string with (String c1 (rest1 ++ t)%string).
    cbn [trimStart] in *. rewrite Hws in *.
    apply IH; [cbn in Hlen; lia | exact Hnum]. }
  destruct (isLead c1) eqn:Hlead.
  2:{ change (String c1 rest1 ++ t)%string with (String c1 (rest1 ++ t)%string).
      rewrite !trimStart_plain by assumption. reflexivity. }
  assert (Hstuck : trimStart (String c1 rest1) = String c1 rest1 -> False).
  { intros Heq. rewrite Heq in Hnum.
    destruct (sign_or_digit_plain _ Hnum) as (c & r & [= <- <-] & _ & Hl).
    congruence. }
  destruct rest1 as [|c2 rest2]; [exfalso; apply Hstuck; cbn; rewrite Hws; reflexivity|].
  destruct (isWhiteSpace2 c1 c2) eqn:H2.
  { change (String c1 (String c2 rest2) ++ t)%string
      with (String c1 (String c2 (rest2 ++ t)%string)).
    cbn [trimStart] in *. rewrite Hws, H2 in *.
    apply IH; [cbn in Hlen; lia | exact Hnum]. }
  destruct rest2 as [|c3 rest3];
    [exfalso; apply Hstuck; cbn; rewrite Hws, H2; reflexivity|].
  destruct (isWhiteSpace3 c1 c2 c3) eqn:H3.
  { change (String c1 (String c2 (String c3 rest3)) ++ t)%string
      with (String c1 (String c2 (String c3 (rest3 ++ t)%string))).
    cbn [trimStart] in *. rewrite Hws, H2, H3 in *.
    apply IH; [cbn in Hlen; lia | exact Hnum]. }
  exfalso. apply Hstuck. cbn [trimStart]. rewrite Hws, H2, H3. reflexivity.
Qed.

Lemma trimStart_app (s t : string) :
  looksNumeric s = true -> trimStart (s ++ t) = (trimStart s ++ t)%string.
Proof. apply (trimStart_app_fuel (String.length s)). reflexivity. Qed.

Lemma withoutSign_app (u t : string) :
  startsWithDigit (withoutSign u) = true ->
  withoutSign (u ++ t) = (withoutSign u ++ t)%string
  /\ (match (u ++ t)%string with String "-" _ => -1 | _ => 1 end
      = match u with String "-" _ => -1 | _ => 1 end).
Proof.
  destruct u as [|c rest]; [discriminate|].
  destruct c as [[] [] [] [] [] [] [] []]; intros _; split; reflexivity.
Qed.

Lemma parseDigits_app (b : string) (c : ascii) (rest : string) (acc : option Z) :
  digitValue c = None ->
  parseDigits (b ++ String c rest) acc = parseDigits b acc.
Proof.
  intros Hc. revert acc.
  induction b as [|d b IH]; intros acc.
  - change ("" ++ String c rest)%string with (String c rest).
    cbn [parseDigits]. rewrite Hc. reflexivity.
  - change (String d b ++ String c rest)%string
      with (String d (b ++ String c rest)%string).
    cbn [parseDigits]. destruct (digitValue d); [apply IH | reflexivity].
Qed.

Lemma parseInt_ignores_tail (v : string) (c : ascii) (rest : string) :
  looksNumeric v = true -> digitValue c = None ->
  parseInt (v ++ String c rest) = parseInt v.
Proof.
  intros Hnum Hc.
  rewrite !parseInt_body, (trimStart_app v _ Hnum).
  unfold looksNumeric in Hnum.
  destruct (withoutSign_app (trimStart v) (String c rest) Hnum) as [-> ->].
  rewrite parseDigits_app by exact Hc. reflexivity.
Qed.

Lemma looksNumeric_truthy (v : string) :
  looksNumeric v = true ->
  truthyStr (Some v) = Some v
  /\ forall t, truthyStr (Some (v ++ t)%string) = Some (v ++ t)%string.
Proof.
  intros Hnum.
  split; [|intros t]; apply truthyStr_Some; (split; [reflexivity|]);
    (destruct v; [discriminate Hnum | discriminate]).
Qed.

(** X30: what follows the leading number of a parameter is ignored: a
    [page] or [limit] value that starts with a number and goes on with any
    character that is not a digit is parsed like the value cut before that
    character ([limit=10abc] like [limit=10], [page=2.9] like [page=2]). *)
Theorem parsePagination_ignores_tail (longForm : Z -> string)
    (options : option PaginationOptions.t)
    (pageValue limitValue : string) (c c' : ascii) (rest rest' : string) :
  looksNumeric pageValue = true -> digitValue c = None ->
  looksNumeric limitValue = true -> digitValue c' = None ->
  parsePagination longForm
    (MkRequest [("page", (pageValue ++ String c rest)%string);
                ("limit", (limitValue ++ String c' rest')%string)]) options
  = parsePagination longForm
      (MkRequest [("page", pageValue); ("limit", limitValue)]) options.
Proof.
  intros Hp Hc Hl Hc'. rewrite !parsePagination_unfold.
  unfold pageSource, limitSource, orElse.
  cbn [searchParams searchParams_get String.eqb Ascii.eqb Bool.eqb].
  destruct (looksNumeric_truthy pageValue Hp) as [Hp0 Hp1].
  destruct (looksNumeric_truthy limitValue Hl) as [Hl0 Hl1].
  rewrite Hp0, Hl0, Hp1, Hl1.
  rewrite !parseInt_ignores_tail by assumption. reflexivity.
Qed.

Lemma parsePagination_ignores_tail_witness :
  parsePagination (fun _ => "")
    (MkRequest [("page", "2.9"); ("limit", "10abc")]) None
  = parsePagination (fun _ => "")
      (MkRequest [("page", "2"); ("limit", "10")]) None.
Proof.
  apply (parsePagination_ignores_tail (fun _ => "") None "2" "10" "." "a" "9" "bc");
    reflexivity.
Defined.
